(** * SerialKeyboardMouseController: the absolute-pointer HID adapter and the
      serial frame protocol

    A shallow embedding of [src/AbsMouse.cpp], [AbsMouse.h] and
    [src/serial_symbols.h].  The C++ integer types are [Z] with their
    conversions written out, the object [AbsMouse_] is a record, the USB HID
    transport behind [HID()] is a log of what was handed to it, and every
    member function is an action of a small state-and-trap monad.  The frame
    decoder that uses the serial symbols is modelled from the specification
    of the protocol. *)

From Stdlib Require Import ZArith List Bool Lia Permutation.
Import ListNotations.
Local Open Scope Z_scope.

(** ** Fixed-width integers *)

Module Int.

(** Conversion to [uint8_t], [uint16_t], [uint32_t]: reduction modulo 2^w. *)
Definition wrap8 (z : Z) : Z := z mod 256.
Definition wrap16 (z : Z) : Z := z mod 65536.
Definition wrap32 (z : Z) : Z := z mod 4294967296.

(** Reading a byte as [int8_t] (two's complement). *)
Definition signed8 (z : Z) : Z :=
  if wrap8 z <? 128 then wrap8 z else wrap8 z - 256.

Definition u8 (z : Z) : Prop := 0 <= z < 256.
Definition i8 (z : Z) : Prop := -128 <= z < 128.
Definition u16 (z : Z) : Prop := 0 <= z < 65536.
Definition u32 (z : Z) : Prop := 0 <= z < 4294967296.

End Int.
Import Int.

(** ** The HID transport (external)

    [HID().AppendDescriptor(node)] and [HID().SendReport(id, data, len)] are
    the two calls the adapter makes.  The transport is modelled by what it
    has received so far, oldest first. *)

Record HID_ : Type := mkHID {
  descriptors : list (list Z);
  sent : list (Z * list Z)
}.

(** A transport that has not been handed anything yet. *)
Definition HID_empty : HID_ := mkHID [] [].

Definition AppendDescriptor (d : list Z) (h : HID_) : HID_ :=
  mkHID (descriptors h ++ [d]) (sent h).

Definition SendReport (id : Z) (data : list Z) (len : nat) (h : HID_) : HID_ :=
  mkHID (descriptors h) (sent h ++ [(id, firstn len data)]).

Definition HID_REPORT_DESCRIPTOR : list Z :=
  [ 0x05; 0x01;         0x09; 0x02;         0xA1; 0x01;
    0x09; 0x01;         0xA1; 0x00;         0x85; 0x01;
    0x05; 0x09;         0x19; 0x01;         0x29; 0x03;
    0x15; 0x00;         0x25; 0x01;         0x95; 0x03;
    0x75; 0x01;         0x81; 0x02;         0x95; 0x01;
    0x75; 0x05;         0x81; 0x03;         0x05; 0x01;
    0x09; 0x30;         0x09; 0x31;
    0x16; 0x00; 0x00;   0x26; 0xFF; 0x7F;
    0x36; 0x00; 0x00;   0x46; 0xFF; 0x7F;
    0x75; 0x10;         0x95; 0x02;         0x81; 0x02;
    0x09; 0x38;         0x15; 0x81;         0x25; 0x7F;
    0x35; 0x81;         0x45; 0x7F;         0x75; 0x08;
    0x95; 0x01;         0x81; 0x06;
    0xC0;               0xC0 ].

(** ** The adapter object *)

Definition MOUSE_LEFT : Z := 0x01.
Definition MOUSE_RIGHT : Z := 0x02.
Definition MOUSE_MIDDLE : Z := 0x04.

Record AbsMouse_ : Type := mkAbsMouse {
  _buttons : Z;        (* uint8_t  *)
  _scroll : Z;         (* int8_t   *)
  _x : Z;              (* uint16_t *)
  _y : Z;              (* uint16_t *)
  _width : Z;          (* uint32_t *)
  _height : Z;         (* uint32_t *)
  _autoReport : bool
}.

(** Every field holds a value of its C++ type. *)
Record typed (m : AbsMouse_) : Prop := mkTyped {
  typed_buttons : u8 (_buttons m);
  typed_scroll : i8 (_scroll m);
  typed_x : u16 (_x m);
  typed_y : u16 (_y m);
  typed_width : u32 (_width m);
  typed_height : u32 (_height m)
}.

(** The object together with the transport it talks to. *)
Record World : Type := mkWorld {
  mouse : AbsMouse_;
  hid : HID_
}.

(** ** Actions: state passing with a trap

    A member function either returns, leaving a new world, or traps.  The
    only trap in the adapter is the integer division by zero in [move]
    (undefined behaviour in C++). *)

Inductive Trap : Type := DivisionByZero.

Inductive Outcome (A : Type) : Type :=
| Done (a : A) (w : World)
| Stuck (t : Trap).
Arguments Done {A} a w.
Arguments Stuck {A} t.

Definition Act (A : Type) : Type := World -> Outcome A.

Definition ret {A} (a : A) : Act A := fun w => Done a w.
Definition trap {A} (t : Trap) : Act A := fun _ => Stuck t.
Definition bind {A B} (m : Act A) (k : A -> Act B) : Act B :=
  fun w => match m w with
           | Done a w' => k a w'
           | Stuck t => Stuck t
           end.
Definition get : Act AbsMouse_ := fun w => Done (mouse w) w.
Definition put (m : AbsMouse_) : Act unit := fun w => Done tt (mkWorld m (hid w)).
Definition transport (f : HID_ -> HID_) : Act unit :=
  fun w => Done tt (mkWorld (mouse w) (f (hid w))).
Definition when (b : bool) (m : Act unit) : Act unit := if b then m else ret tt.

Declare Scope act_scope.
Delimit Scope act_scope with act.
Notation "x <- m ;; k" := (bind m (fun x => k))
  (at level 61, m at next level, right associativity) : act_scope.
Notation "m ;; k" := (bind m (fun _ => k))
  (at level 61, right associativity) : act_scope.
Local Open Scope act_scope.

(** Field assignments. *)
Definition set_buttons (v : Z) (m : AbsMouse_) : AbsMouse_ :=
  mkAbsMouse v (_scroll m) (_x m) (_y m) (_width m) (_height m) (_autoReport m).
Definition set_scroll (v : Z) (m : AbsMouse_) : AbsMouse_ :=
  mkAbsMouse (_buttons m) v (_x m) (_y m) (_width m) (_height m) (_autoReport m).
Definition set_xy (vx vy : Z) (m : AbsMouse_) : AbsMouse_ :=
  mkAbsMouse (_buttons m) (_scroll m) vx vy (_width m) (_height m) (_autoReport m).
Definition set_config (w h : Z) (a : bool) (m : AbsMouse_) : AbsMouse_ :=
  mkAbsMouse (_buttons m) (_scroll m) (_x m) (_y m) w h a.

(** ** Member functions of [AbsMouse_] *)

(** [AbsMouse_::AbsMouse_(void)]: the member initialisers, then the report
    descriptor is registered with the transport. *)
Definition AbsMouse_ctor (h : HID_) : World :=
  mkWorld (mkAbsMouse 0 0 0 0 1920 1080 false)
          (AppendDescriptor HID_REPORT_DESCRIPTOR h).

(** [void init(uint16_t width, uint16_t height, bool autoReport)]. *)
Definition init (width height : Z) (autoReport : bool) : Act unit :=
  m <- get ;;
  put (set_config width height autoReport m).

(** The default arguments of [init] declared in [AbsMouse.h]. *)
Definition init_default_width : Z := 32767.
Definition init_default_height : Z := 32767.
Definition init_default_autoReport : bool := true.

(** The six bytes [report] writes into [buffer]. *)
Definition report_buffer (m : AbsMouse_) : list Z :=
  [ _buttons m;
    Z.land (_x m) 0xFF;
    Z.land (Z.shiftr (_x m) 8) 0xFF;
    Z.land (_y m) 0xFF;
    Z.land (Z.shiftr (_y m) 8) 0xFF;
    wrap8 (_scroll m) ].

(** [void report(void)]. *)
Definition report : Act unit :=
  m <- get ;;
  transport (SendReport 1 (report_buffer m) 6) ;;
  put (set_scroll 0 m).

(** One rescaled coordinate of [move]:
    [(uint16_t)((32767l * ((uint32_t)v)) / ref)], the product and the
    quotient in 32-bit unsigned arithmetic. *)
Definition rescale (v ref : Z) : Z :=
  wrap16 (wrap32 (32767 * wrap32 v) / ref).

(** [void move(uint16_t x, uint16_t y)]. *)
Definition move (x y : Z) : Act unit :=
  m <- get ;;
  (if negb (_width m =? 32767) || negb (_height m =? 32767) then
     if _width m =? 0 then trap DivisionByZero
     else if _height m =? 0 then trap DivisionByZero
     else put (set_xy (rescale x (_width m)) (rescale y (_height m)) m)
   else
     put (set_xy x y m)) ;;
  when (_autoReport m) report.

(** [void scroll(int8_t wheel)]. *)
Definition scroll (wheel : Z) : Act unit :=
  m <- get ;;
  put (set_scroll wheel m) ;;
  when (_autoReport m) report.

(** [void press(uint8_t button)]: [_buttons |= button]. *)
Definition press (button : Z) : Act unit :=
  m <- get ;;
  put (set_buttons (wrap8 (Z.lor (_buttons m) button)) m) ;;
  when (_autoReport m) report.

(** [void release(uint8_t button)]: [_buttons &= ~button]. *)
Definition release (button : Z) : Act unit :=
  m <- get ;;
  put (set_buttons (wrap8 (Z.land (_buttons m) (Z.lnot button))) m) ;;
  when (_autoReport m) report.

(** ** Sequences of calls on the adapter *)

Inductive Call : Type :=
| CallInit (width height : Z) (autoReport : bool)
| CallMove (x y : Z)
| CallScroll (wheel : Z)
| CallPress (button : Z)
| CallRelease (button : Z)
| CallReport.

Definition call (c : Call) : Act unit :=
  match c with
  | CallInit width height autoReport => init width height autoReport
  | CallMove x y => move x y
  | CallScroll wheel => scroll wheel
  | CallPress button => press button
  | CallRelease button => release button
  | CallReport => report
  end.

Fixpoint calls (cs : list Call) : Act unit :=
  match cs with
  | [] => ret tt
  | c :: tl => call c ;; calls tl
  end.

(** The arguments of a call are values of the parameter types. *)
Definition call_typed (c : Call) : Prop :=
  match c with
  | CallInit width height _ => u16 width /\ u16 height
  | CallMove x y => u16 x /\ u16 y
  | CallScroll wheel => i8 wheel
  | CallPress button | CallRelease button => u8 button
  | CallReport => True
  end.

(** Every [init] of the sequence sets a reference resolution of at least
    1x1 and every [move] passes a point inside the reference resolution in
    force when it is called ([W]x[H] at the start of the sequence). *)
Fixpoint in_reference (W H : Z) (cs : list Call) : Prop :=
  match cs with
  | [] => True
  | CallInit width height _ :: tl =>
      1 <= width /\ 1 <= height /\ in_reference width height tl
  | CallMove x y :: tl => x <= W /\ y <= H /\ in_reference W H tl
  | _ :: tl => in_reference W H tl
  end.

(** The state a sequence of calls is started in: a reference resolution of
    at least 1x1 and both coordinates within 0..32767. *)
Definition in_range (m : AbsMouse_) : Prop :=
  1 <= _width m /\ 1 <= _height m /\
  0 <= _x m <= 32767 /\ 0 <= _y m <= 32767.

Definition is_scroll (c : Call) : bool :=
  match c with CallScroll _ => true | _ => false end.

(** The last report handed to the transport. *)
Definition last_report (w : World) : option (Z * list Z) :=
  match rev (sent (hid w)) with
  | [] => None
  | r :: _ => Some r
  end.

(** ** Serial protocol symbols ([serial_symbols.h]) *)

Definition BAUD_RATE : Z := 500000.

Definition FRAME_START : Z := 0xAB.
Definition MAX_DATA_LENGTH : Z := 6.
Definition MAX_FRAME_LENGTH : Z := wrap8 (MAX_DATA_LENGTH + 2).

Inductive FrameType : Type :=
| FRAME_TYPE_REL_MOUSE_MOVE
| FRAME_TYPE_MOUSE_MOVE
| FRAME_TYPE_MOUSE_SCROLL
| FRAME_TYPE_MOUSE_PRESS
| FRAME_TYPE_MOUSE_RELEASE
| FRAME_TYPE_MOUSE_RESOLUTION
| FRAME_TYPE_KEY_PRESS
| FRAME_TYPE_KEY_RELEASE
| FRAME_TYPE_UNKNOWN.

(** The enumerator values. *)
Definition FrameType_value (t : FrameType) : Z :=
  match t with
  | FRAME_TYPE_REL_MOUSE_MOVE => 0xA0
  | FRAME_TYPE_MOUSE_MOVE => 0xAA
  | FRAME_TYPE_MOUSE_SCROLL => 0xAB
  | FRAME_TYPE_MOUSE_PRESS => 0xAC
  | FRAME_TYPE_MOUSE_RELEASE => 0xAD
  | FRAME_TYPE_MOUSE_RESOLUTION => 0xAE
  | FRAME_TYPE_KEY_PRESS => 0xBB
  | FRAME_TYPE_KEY_RELEASE => 0xBC
  | FRAME_TYPE_UNKNOWN => 0xFF
  end.

Definition RELEASE_ALL_KEYS : Z := 0x00.

(** "Checksum is XOR checksum of all data bytes" (frame format comment). *)
Fixpoint xor_checksum (data : list Z) : Z :=
  match data with
  | [] => 0
  | b :: tl => Z.lxor b (xor_checksum tl)
  end.

(** A frame on the wire: [0xAB <Length> <Data...> <Checksum>] with
    [Length = Data + Checksum]. *)
Definition wire (data : list Z) (cks : Z) : list Z :=
  FRAME_START :: Z.of_nat (length data + 1) :: data ++ [cks].

Definition encode (data : list Z) : list Z := wire data (xor_checksum data).

(** Bit [k] of the [i]-th data byte inverted. *)
Fixpoint flip_bit (i : nat) (k : Z) (data : list Z) : list Z :=
  match data, i with
  | [], _ => []
  | b :: tl, O => Z.lxor b (Z.shiftl 1 k) :: tl
  | b :: tl, S j => b :: flip_bit j k tl
  end.

(** ** The frame decoder

    The decoder lives in the firmware sketch, which is not among the
    sources embedded above; only the symbols it uses are. *)

(** Modelled from the spec: the data model of a decoded frame,
    [{ type, payload (0..=4 bytes), checksum }]. *)
Record Frame : Type := mkFrame {
  frame_type : Z;
  payload : list Z;
  checksum : Z
}.

(** Modelled from the spec: the decoder states
    [AwaitingStart, AwaitingLength, AwaitingData, Complete]. *)
Inductive DecoderState : Type :=
| AwaitingStart
| AwaitingLength
| AwaitingData
| Complete.

(** Modelled from the spec: the decoder, its state together with the
    declared length of the frame in flight and the fixed-capacity buffer of
    the bytes accumulated so far. *)
Record Decoder : Type := mkDecoder {
  state : DecoderState;
  declared : Z;
  buffer : list Z
}.

Definition idle : Decoder := mkDecoder AwaitingStart 0 [].

(** Modelled from the spec: what happens once the declared number of bytes
    has been accumulated.  The last byte is the checksum and the XOR of the
    bytes before it must equal it; on a match the frame is emitted with the
    first accumulated byte as its type, on a mismatch nothing is.  (A frame
    of declared length 1 has no type byte and is not emitted.) *)
Definition complete (buf : list Z) : option Frame :=
  let data := removelast buf in
  let cks := last buf 0 in
  if xor_checksum data =? cks then
    match data with
    | [] => None
    | t :: p => Some (mkFrame t p cks)
    end
  else None.

(** Modelled from the spec: the per-byte step of the decoder (section 4.1),
    returning the next decoder and the frame completed by this byte, if any.
    [Complete] is passed through within the step that receives the last
    byte: the decoder is reset to [AwaitingStart] whether the frame is
    emitted or discarded. *)
Definition decode_byte (d : Decoder) (b : Z) : Decoder * option Frame :=
  match state d with
  | AwaitingStart | Complete =>
      if b =? FRAME_START then (mkDecoder AwaitingLength 0 [], None)
      else (idle, None)
  | AwaitingLength =>
      if (b =? 0) || (MAX_DATA_LENGTH <? b) then (idle, None)
      else (mkDecoder AwaitingData b [], None)
  | AwaitingData =>
      let buf := buffer d ++ [b] in
      if Z.of_nat (length buf) <? declared d
      then (mkDecoder AwaitingData (declared d) buf, None)
      else (idle, complete buf)
  end.

(** The decoder run over a byte sequence, with the frames it emits. *)
Fixpoint decode (d : Decoder) (bytes : list Z) : Decoder * list Frame :=
  match bytes with
  | [] => (d, [])
  | b :: tl =>
      let (d', f) := decode_byte d b in
      let (d'', fs) := decode d' tl in
      (d'', match f with Some fr => fr :: fs | None => fs end)
  end.

(** What the decoder guarantees about a frame in flight. *)
Definition decoder_ok (d : Decoder) : Prop :=
  state d = AwaitingData ->
  1 <= declared d <= MAX_DATA_LENGTH /\ Z.of_nat (length (buffer d)) < declared d.

(** Modelled from the spec: the pipeline of section 5.  Each byte is decoded
    and a completed frame is dispatched synchronously, before the next byte.
    The dispatcher and the HID state it acts on are parameters: the only
    thing the pipeline fixes is that the HID side is touched through
    [dispatch], on emitted frames. *)
Section Pipeline.

Context {Hid : Type} (dispatch : Frame -> Hid -> Hid).

Definition process_byte (s : Decoder * Hid) (b : Z) : Decoder * Hid :=
  let (d', f) := decode_byte (fst s) b in
  (d', match f with Some fr => dispatch fr (snd s) | None => snd s end).

Definition process (bytes : list Z) (s : Decoder * Hid) : Decoder * Hid :=
  fold_left process_byte bytes s.

End Pipeline.

(** A dispatcher that only records what it is given, newest first. *)
Definition record_frame (f : Frame) (seen : list Frame) : list Frame := f :: seen.

(** ** Bookkeeping over call sequences

    Vocabulary for stating what a sequence of calls hands to the transport. *)

(** Does this call end in [report()], given the [_autoReport] flag it finds? *)
Definition call_reports (a : bool) (c : Call) : bool :=
  match c with
  | CallInit _ _ _ => false
  | CallReport => true
  | _ => a
  end.

(** The [_autoReport] flag a call leaves. *)
Definition auto_after (a : bool) (c : Call) : bool :=
  match c with
  | CallInit _ _ a' => a'
  | _ => a
  end.

(** The number of reports a sequence of calls emits, started with flag [a]. *)
Fixpoint emitted (a : bool) (cs : list Call) : nat :=
  match cs with
  | [] => 0
  | c :: tl => ((if call_reports a c then 1 else 0) + emitted (auto_after a c) tl)%nat
  end.

Definition is_init (c : Call) : bool :=
  match c with CallInit _ _ _ => true | _ => false end.

Definition is_move (c : Call) : bool :=
  match c with CallMove _ _ => true | _ => false end.

Definition is_mutator (c : Call) : bool :=
  match c with
  | CallMove _ _ | CallScroll _ | CallPress _ | CallRelease _ => true
  | _ => false
  end.

(** A report as the descriptor announces it: report id 1, six bytes. *)
Definition report_ok (r : Z * list Z) : Prop :=
  fst r = 1 /\ length (snd r) = 6%nat /\ Forall u8 (snd r).

(** The scroll byte of a report, and the number of reports in a log that
    carry a non-zero one. *)
Definition scroll_byte (r : Z * list Z) : Z := nth 5 (snd r) 0.

Definition scrolled (log : list (Z * list Z)) : nat :=
  length (filter (fun r => negb (scroll_byte r =? 0)) log).

(** 1 if the adapter holds a scroll delta not yet reported, else 0. *)
Definition pending (m : AbsMouse_) : nat :=
  if _scroll m =? 0 then 0%nat else 1%nat.

(** The [i]-th data byte replaced by [b]. *)
Fixpoint set_byte (i : nat) (b : Z) (data : list Z) : list Z :=
  match data, i with
  | [], _ => []
  | _ :: tl, O => b :: tl
  | x :: tl, S j => x :: set_byte j b tl
  end.

(** Unfolds the member functions down to the monad's primitives. *)
Ltac step_act :=
  cbv [calls call init report move scroll press release
       bind get put transport when ret trap].

(** Splits a goal into its conjuncts, and nothing else. *)
Ltac conjuncts := repeat match goal with |- _ /\ _ => split end.

(** * Properties *)

(** ** Integer conversions and bit operations *)

Section Bits.

Lemma wrap8_land z : wrap8 z = Z.land z 0xFF.
Proof. unfold wrap8. change 0xFF with (Z.ones 8). now rewrite Z.land_ones. Qed.

Lemma wrap8_u8 z : u8 (wrap8 z).
Proof. unfold u8, wrap8. apply Z.mod_pos_bound. lia. Qed.

Lemma wrap8_small z : u8 z -> wrap8 z = z.
Proof. unfold u8, wrap8. intros. now apply Z.mod_small. Qed.

Lemma wrap16_u16 z : u16 (wrap16 z).
Proof. unfold u16, wrap16. apply Z.mod_pos_bound. lia. Qed.

Lemma wrap16_small z : u16 z -> wrap16 z = z.
Proof. unfold u16, wrap16. intros. now apply Z.mod_small. Qed.

Lemma wrap32_small z : u32 z -> wrap32 z = z.
Proof. unfold u32, wrap32. intros. now apply Z.mod_small. Qed.

Lemma signed8_wrap8 z : i8 z -> signed8 (wrap8 z) = z.
Proof.
  unfold i8, signed8, wrap8. intros Hz.
  rewrite Z.mod_mod by lia.
  destruct (Z_lt_le_dec z 0) as [Hneg | Hpos].
  - replace (z mod 256) with (z + 256).
    + destruct (Z.ltb_spec (z + 256) 128); lia.
    + apply Z.mod_unique with (q := -1); lia.
  - rewrite Z.mod_small by lia.
    destruct (Z.ltb_spec z 128); lia.
Qed.

(** [_buttons |= button] stays within a byte, so the conversion back to
    [uint8_t] loses nothing. *)
Lemma lor_wrap8 a b : u8 a -> u8 b -> wrap8 (Z.lor a b) = Z.lor a b.
Proof.
  intros Ha Hb. rewrite wrap8_land, Z.land_lor_distr_l.
  rewrite <- !wrap8_land. now rewrite !wrap8_small.
Qed.

(** [_buttons &= ~button] likewise, although [~button] is negative. *)
Lemma land_lnot_wrap8 a b :
  u8 a -> wrap8 (Z.land a (Z.lnot b)) = Z.land a (Z.lnot b).
Proof.
  intros Ha. rewrite wrap8_land.
  rewrite <- Z.land_assoc, (Z.land_comm (Z.lnot b)), Z.land_assoc.
  rewrite <- wrap8_land. now rewrite wrap8_small.
Qed.

Lemma lor_twice a b : Z.lor (Z.lor a b) b = Z.lor a b.
Proof. now rewrite <- Z.lor_assoc, Z.lor_diag. Qed.

Lemma land_lnot_twice a b :
  Z.land (Z.land a (Z.lnot b)) (Z.lnot b) = Z.land a (Z.lnot b).
Proof. now rewrite <- Z.land_assoc, Z.land_diag. Qed.

(** The two bytes [v & 0xFF] and [(v >> 8) & 0xFF] of a 16-bit value. *)
Lemma low_byte v : Z.land v 0xFF = v mod 256.
Proof. now rewrite <- wrap8_land. Qed.

Lemma high_byte v : u16 v -> Z.land (Z.shiftr v 8) 0xFF = v / 256.
Proof.
  unfold u16. intros Hv. rewrite <- wrap8_land, Z.shiftr_div_pow2 by lia.
  change (2 ^ 8) with 256. apply wrap8_small. unfold u8.
  split; [apply Z.div_pos; lia | apply Z.div_lt_upper_bound; lia].
Qed.

Lemma little_endian v :
  u16 v -> Z.land v 0xFF + 256 * Z.land (Z.shiftr v 8) 0xFF = v.
Proof.
  intros Hv. rewrite low_byte, high_byte by assumption.
  pose proof (Z.div_mod v 256). lia.
Qed.

Lemma low_byte_u8 v : u8 (Z.land v 0xFF).
Proof. rewrite <- wrap8_land. apply wrap8_u8. Qed.

End Bits.

(** ** Rescaling *)

Section Rescale.

Variables v ref : Z.
Hypothesis Hv : u16 v.
Hypothesis Href : 1 <= ref.

(** Neither 32-bit conversion in [rescale] loses anything: the product is
    at most 32767 * 65535. *)
Lemma rescale_mod : rescale v ref = (32767 * v / ref) mod 65536.
Proof.
  unfold rescale, u16 in *.
  rewrite (wrap32_small v) by (unfold u32; lia).
  rewrite wrap32_small by (unfold u32; lia).
  reflexivity.
Qed.

Lemma rescale_exact : 32767 * v / ref < 65536 -> rescale v ref = 32767 * v / ref.
Proof.
  intros Hq. rewrite rescale_mod. apply Z.mod_small.
  split; [apply Z.div_pos; unfold u16 in Hv; lia | assumption].
Qed.

Lemma quotient_in_range : v <= ref -> 0 <= 32767 * v / ref <= 32767.
Proof.
  intros Hle. unfold u16 in Hv. split.
  - apply Z.div_pos; lia.
  - apply Z.lt_succ_r. apply Z.div_lt_upper_bound; nia.
Qed.

Lemma rescale_in_range : v <= ref -> 0 <= rescale v ref <= 32767.
Proof.
  intros Hle. pose proof (quotient_in_range Hle).
  rewrite rescale_exact; lia.
Qed.

End Rescale.

(** ** The member functions, one at a time *)

(** What [if (_autoReport) report();] at the end of a mutator does. *)
Lemma when_report (a : bool) (w : World) :
  exists w',
    when a report w = Done tt w' /\
    _buttons (mouse w') = _buttons (mouse w) /\
    _scroll (mouse w') = (if a then 0 else _scroll (mouse w)) /\
    _x (mouse w') = _x (mouse w) /\
    _y (mouse w') = _y (mouse w) /\
    _width (mouse w') = _width (mouse w) /\
    _height (mouse w') = _height (mouse w) /\
    _autoReport (mouse w') = _autoReport (mouse w) /\
    descriptors (hid w') = descriptors (hid w) /\
    sent (hid w') =
      sent (hid w) ++ (if a then [(1, report_buffer (mouse w))] else []).
Proof.
  destruct a; step_act.
  - eexists; split; [reflexivity | cbn; repeat split; reflexivity].
  - exists w. cbn. rewrite app_nil_r. repeat split; reflexivity.
Qed.

(** The mutators share one shape: assign, then report if configured to. *)
Lemma assign_then_report (f : AbsMouse_ -> AbsMouse_) (w : World) :
  (m <- get ;; put (f m) ;; when (_autoReport m) report) w =
  when (_autoReport (mouse w)) report (mkWorld (f (mouse w)) (hid w)).
Proof. reflexivity. Qed.

Lemma scroll_unfold wheel w :
  scroll wheel w =
  when (_autoReport (mouse w)) report (mkWorld (set_scroll wheel (mouse w)) (hid w)).
Proof. reflexivity. Qed.

Lemma press_unfold button w :
  press button w =
  when (_autoReport (mouse w)) report
       (mkWorld (set_buttons (wrap8 (Z.lor (_buttons (mouse w)) button)) (mouse w))
                (hid w)).
Proof. reflexivity. Qed.

Lemma release_unfold button w :
  release button w =
  when (_autoReport (mouse w)) report
       (mkWorld (set_buttons (wrap8 (Z.land (_buttons (mouse w)) (Z.lnot button)))
                             (mouse w))
                (hid w)).
Proof. reflexivity. Qed.

(** [move] on the rescaling branch, when neither divisor is zero. *)
Lemma move_rescaling x y w :
  (_width (mouse w) <> 32767 \/ _height (mouse w) <> 32767) ->
  _width (mouse w) <> 0 -> _height (mouse w) <> 0 ->
  move x y w =
  when (_autoReport (mouse w)) report
       (mkWorld (set_xy (rescale x (_width (mouse w)))
                        (rescale y (_height (mouse w))) (mouse w))
                (hid w)).
Proof.
  intros Hnat HW HH. step_act.
  apply Z.eqb_neq in HW, HH. rewrite HW, HH.
  destruct (Z.eqb_spec (_width (mouse w)) 32767);
    destruct (Z.eqb_spec (_height (mouse w)) 32767);
    try reflexivity.
  destruct Hnat; contradiction.
Qed.

(** [move] on the pass-through branch. *)
Lemma move_native x y w :
  _width (mouse w) = 32767 -> _height (mouse w) = 32767 ->
  move x y w =
  when (_autoReport (mouse w)) report (mkWorld (set_xy x y (mouse w)) (hid w)).
Proof.
  intros HW HH. step_act. rewrite HW, HH. reflexivity.
Qed.

(** [move] when a divisor is zero. *)
Lemma move_traps x y w :
  _width (mouse w) = 0 \/ _height (mouse w) = 0 ->
  move x y w = Stuck DivisionByZero.
Proof.
  intros Hz. step_act.
  destruct (Z.eqb_spec (_width (mouse w)) 0) as [HW | HW].
  - rewrite HW. reflexivity.
  - destruct Hz as [? | HH]; [contradiction |]. rewrite HH.
    destruct (_width (mouse w) =? 32767); reflexivity.
Qed.

(** [move] returns exactly when neither divisor is zero. *)
Lemma move_returns x y w :
  _width (mouse w) <> 0 -> _height (mouse w) <> 0 ->
  exists w', move x y w = Done tt w'.
Proof.
  intros HW HH.
  destruct (Z.eq_dec (_width (mouse w)) 32767) as [EW | NW];
    [destruct (Z.eq_dec (_height (mouse w)) 32767) as [EH | NH] |].
  - rewrite move_native by assumption.
    destruct (when_report (_autoReport (mouse w))
                (mkWorld (set_xy x y (mouse w)) (hid w))) as (w' & E & _).
    now exists w'.
  - rewrite move_rescaling by tauto.
    match goal with |- exists _, when ?a report ?w0 = _ =>
      destruct (when_report a w0) as (w' & E & _) end.
    now exists w'.
  - rewrite move_rescaling by tauto.
    match goal with |- exists _, when ?a report ?w0 = _ =>
      destruct (when_report a w0) as (w' & E & _) end.
    now exists w'.
Qed.

(** ** Coordinates stored by [move] *)

(** C1, as amended.  With a reference resolution of at least 1x1 and
    arguments of the parameter type [uint16_t], [move(x, y)] returns.  If the
    reference resolution is not 32767x32767 it stores
    [floor(32767 * x / width) mod 65536] and
    [floor(32767 * y / height) mod 65536], the reduction being the
    conversion to the 16-bit field; each is the exact floor whenever that
    floor is below 65536, which covers every input inside the reference
    resolution.  If the reference resolution is 32767x32767 the arguments are
    stored unchanged.  With 1920x1080 and (960, 540) the stored pair is
    (16383, 16383). *)
Theorem move_stores_rescaled (w : World) (x y : Z) :
  u16 x -> u16 y ->
  1 <= _width (mouse w) -> 1 <= _height (mouse w) ->
  exists w',
    move x y w = Done tt w' /\
    (_width (mouse w) <> 32767 \/ _height (mouse w) <> 32767 ->
       _x (mouse w') = (32767 * x / _width (mouse w)) mod 65536 /\
       _y (mouse w') = (32767 * y / _height (mouse w)) mod 65536 /\
       (32767 * x / _width (mouse w) < 65536 ->
          _x (mouse w') = 32767 * x / _width (mouse w)) /\
       (32767 * y / _height (mouse w) < 65536 ->
          _y (mouse w') = 32767 * y / _height (mouse w))) /\
    (_width (mouse w) = 32767 /\ _height (mouse w) = 32767 ->
       _x (mouse w') = x /\ _y (mouse w') = y) /\
    (_width (mouse w) = 1920 -> _height (mouse w) = 1080 ->
       x = 960 -> y = 540 ->
       _x (mouse w') = 16383 /\ _y (mouse w') = 16383).
Proof.
  intros Hx Hy HW HH.
  assert (rescaled :
    _width (mouse w) <> 32767 \/ _height (mouse w) <> 32767 ->
    exists w', move x y w = Done tt w' /\
      _x (mouse w') = rescale x (_width (mouse w)) /\
      _y (mouse w') = rescale y (_height (mouse w))).
  { intros Hnat. rewrite move_rescaling by (auto; lia).
    match goal with |- exists _, when ?a report ?w0 = _ /\ _ =>
      destruct (when_report a w0) as (w' & E & _ & _ & Ex & Ey & _) end.
    exists w'. cbn in Ex, Ey. auto. }
  destruct (Z.eq_dec (_width (mouse w)) 32767) as [EW | NW];
    [destruct (Z.eq_dec (_height (mouse w)) 32767) as [EH | NH] |].
  - (* native range: pass through *)
    rewrite move_native by assumption.
    match goal with |- exists _, when ?a report ?w0 = _ /\ _ =>
      destruct (when_report a w0) as (w' & E & _ & _ & Ex & Ey & _) end.
    exists w'. cbn in Ex, Ey. split; [exact E |].
    split; [intros [? | ?]; contradiction |].
    split; [auto | intros; lia].
  - destruct rescaled as (w' & E & Ex & Ey); [auto |].
    exists w'. split; [exact E |]. rewrite Ex, Ey.
    split; [intros _ | split; [intros [_ ?]; contradiction | intros; lia]].
    rewrite !rescale_mod by assumption.
    repeat split; intros; rewrite <- rescale_mod by assumption;
      now apply rescale_exact.
  - destruct rescaled as (w' & E & Ex & Ey); [auto |].
    exists w'. split; [exact E |]. rewrite Ex, Ey.
    split; [intros _ | split; [intros [? _]; contradiction |]].
    + rewrite !rescale_mod by assumption.
      repeat split; intros; rewrite <- rescale_mod by assumption;
        now apply rescale_exact.
    + intros -> -> -> ->. split; reflexivity.
Qed.

(** The rescaling example of the specification, obtained from the theorem
    on a freshly constructed adapter (1920x1080). *)
Lemma move_stores_rescaled_witness :
  exists w',
    move 960 540 (AbsMouse_ctor HID_empty) = Done tt w' /\
    _x (mouse w') = 16383 /\ _y (mouse w') = 16383.
Proof.
  destruct (move_stores_rescaled (AbsMouse_ctor HID_empty) 960 540)
    as (w' & E & _ & _ & Hex).
  - unfold u16; lia.
  - unfold u16; lia.
  - cbn; lia.
  - cbn; lia.
  - exists w'. split; [exact E | apply Hex; reflexivity].
Defined.

(** C1 as stated fails: with reference resolution 1x1, [move(3, 0)] stores
    32765 where the stated floor is 98301, which no 16-bit field holds. *)
Lemma move_exact_floor_counterexample :
  exists w',
    (init 1 1 false ;; move 3 0) (AbsMouse_ctor HID_empty) = Done tt w' /\
    _x (mouse w') = 32765 /\
    32767 * 3 / 1 = 98301 /\
    _x (mouse w') <> 32767 * 3 / 1.
Proof.
  eexists. split; [vm_compute; reflexivity |].
  cbn. repeat split; discriminate.
Qed.

(** ** The coordinate range over sequences of calls *)

Lemma when_report_in_range a w :
  in_range (mouse w) ->
  exists w', when a report w = Done tt w' /\ in_range (mouse w') /\
             _width (mouse w') = _width (mouse w) /\
             _height (mouse w') = _height (mouse w).
Proof.
  intros (HW & HH & Hx & Hy).
  destruct (when_report a w) as (w' & E & _ & _ & Ex & Ey & EW & EH & _).
  exists w'. unfold in_range. rewrite Ex, Ey, EW, EH. auto 10.
Qed.

(** One call keeps the range, and the rest of the sequence stays inside the
    reference resolution then in force. *)
Lemma call_in_range c tl w :
  call_typed c ->
  in_reference (_width (mouse w)) (_height (mouse w)) (c :: tl) ->
  in_range (mouse w) ->
  exists w',
    call c w = Done tt w' /\ in_range (mouse w') /\
    in_reference (_width (mouse w')) (_height (mouse w')) tl.
Proof.
  intros Hty Href Hin. pose proof Hin as (HW & HH & Hx & Hy).
  destruct c as [width height a | x y | wheel | button | button | ];
    cbn [call call_typed in_reference] in *.
  - (* init *)
    destruct Href as (Hw & Hh & Htl). eexists. split; [reflexivity |].
    cbn. unfold in_range. cbn. auto 10.
  - (* move *)
    destruct Hty as (Tx & Ty). destruct Href as (Hxw & Hyh & Htl).
    assert (Hgoal : forall vx vy, 0 <= vx <= 32767 -> 0 <= vy <= 32767 ->
      exists w', when (_autoReport (mouse w)) report
                   (mkWorld (set_xy vx vy (mouse w)) (hid w)) = Done tt w' /\
                 in_range (mouse w') /\
                 in_reference (_width (mouse w')) (_height (mouse w')) tl).
    { intros vx vy Hvx Hvy.
      match goal with |- exists _, when ?a report ?w0 = _ /\ _ =>
        destruct (when_report_in_range a w0) as (w' & E & Hin' & EW & EH) end.
      - unfold in_range. cbn. auto.
      - exists w'. rewrite EW, EH. cbn. auto. }
    destruct (Z.eq_dec (_width (mouse w)) 32767) as [EW | NW];
      [destruct (Z.eq_dec (_height (mouse w)) 32767) as [EH | NH] |].
    + rewrite move_native by assumption. unfold u16 in *. apply Hgoal; lia.
    + rewrite move_rescaling by (auto; lia).
      apply Hgoal; now apply rescale_in_range.
    + rewrite move_rescaling by (auto; lia).
      apply Hgoal; now apply rescale_in_range.
  - (* scroll *)
    rewrite scroll_unfold.
    match goal with |- exists _, when ?a report ?w0 = _ /\ _ =>
      destruct (when_report_in_range a w0) as (w' & E & Hin' & EW & EH) end.
    + exact Hin.
    + exists w'. rewrite EW, EH. auto.
  - (* press *)
    rewrite press_unfold.
    match goal with |- exists _, when ?a report ?w0 = _ /\ _ =>
      destruct (when_report_in_range a w0) as (w' & E & Hin' & EW & EH) end.
    + exact Hin.
    + exists w'. rewrite EW, EH. auto.
  - (* release *)
    rewrite release_unfold.
    match goal with |- exists _, when ?a report ?w0 = _ /\ _ =>
      destruct (when_report_in_range a w0) as (w' & E & Hin' & EW & EH) end.
    + exact Hin.
    + exists w'. rewrite EW, EH. auto.
  - (* report *)
    destruct (when_report_in_range true w Hin) as (w' & E & Hin' & EW & EH).
    exists w'. rewrite EW, EH. auto.
Qed.

(** C2, as amended.  Started with a reference resolution of at least 1x1
    and coordinates within 0..32767, every sequence of calls to [init],
    [move], [scroll], [press], [release] and [report] returns and leaves
    [_x] and [_y] within 0..32767, provided every [init] sets a reference
    resolution of at least 1x1 and every [move] is passed a point inside the
    reference resolution then in force ([x <= width], [y <= height]). *)
Theorem coordinates_stay_in_range (cs : list Call) :
  forall w : World,
    Forall call_typed cs ->
    in_reference (_width (mouse w)) (_height (mouse w)) cs ->
    1 <= _width (mouse w) -> 1 <= _height (mouse w) ->
    0 <= _x (mouse w) <= 32767 -> 0 <= _y (mouse w) <= 32767 ->
    exists w',
      calls cs w = Done tt w' /\
      0 <= _x (mouse w') <= 32767 /\ 0 <= _y (mouse w') <= 32767.
Proof.
  assert (gen : forall w, Forall call_typed cs ->
    in_reference (_width (mouse w)) (_height (mouse w)) cs ->
    in_range (mouse w) ->
    exists w', calls cs w = Done tt w' /\ in_range (mouse w')).
  { induction cs as [| c tl IH]; intros w Hty Href Hin.
    - exists w. split; [reflexivity | exact Hin].
    - inversion Hty as [| ? ? Hc Htl]; subst.
      destruct (call_in_range c tl w Hc Href Hin) as (w1 & E1 & Hin1 & Href1).
      destruct (IH w1 Htl Href1 Hin1) as (w' & E & Hin').
      exists w'. split; [| exact Hin'].
      cbn [calls]. unfold bind. rewrite E1. exact E. }
  intros w Hty Href HW HH Hx Hy.
  destruct (gen w Hty Href) as (w' & E & _ & _ & Hx' & Hy').
  - unfold in_range. auto.
  - exists w'. auto.
Qed.

(** The theorem on a sequence that changes the reference resolution, moves
    to a corner of it, clicks and scrolls. *)
Lemma coordinates_stay_in_range_witness :
  exists w',
    calls [CallMove 1920 1080; CallInit 800 600 true; CallMove 800 0;
           CallPress 1; CallScroll (-3); CallRelease 1; CallReport]
          (AbsMouse_ctor HID_empty) = Done tt w' /\
    0 <= _x (mouse w') <= 32767 /\ 0 <= _y (mouse w') <= 32767.
Proof.
  apply (coordinates_stay_in_range
           [CallMove 1920 1080; CallInit 800 600 true; CallMove 800 0;
            CallPress 1; CallScroll (-3); CallRelease 1; CallReport]
           (AbsMouse_ctor HID_empty)).
  - repeat constructor; cbn; unfold u16, u8, i8; lia.
  - cbn. lia.
  - cbn. lia.
  - cbn. lia.
  - cbn. lia.
  - cbn. lia.
Defined.

(** C2 as stated fails: under the reference resolution 1920x1080, a [move]
    to x = 3000 stores 51198; under 32767x32767, a [move] to x = 40000
    stores 40000. *)
Lemma coordinates_out_of_range_counterexample :
  (exists w',
     calls [CallInit 1920 1080 false; CallMove 3000 0]
           (AbsMouse_ctor HID_empty) = Done tt w' /\
     _x (mouse w') = 51198 /\ ~ (0 <= _x (mouse w') <= 32767)) /\
  (exists w',
     calls [CallInit 32767 32767 true; CallMove 40000 0]
           (AbsMouse_ctor HID_empty) = Done tt w' /\
     _x (mouse w') = 40000 /\ ~ (0 <= _x (mouse w') <= 32767)).
Proof.
  split; (eexists; split; [vm_compute; reflexivity |]); cbn; split;
    try reflexivity; lia.
Qed.

(** ** Report emission *)

Lemma last_report_snoc w r l :
  sent (hid w) = l ++ [r] -> last_report w = Some r.
Proof. unfold last_report. intros ->. now rewrite rev_unit. Qed.

(** A [move] that returns has assigned some pair and then reported if
    configured to. *)
Lemma move_done x y w w' :
  move x y w = Done tt w' ->
  exists vx vy,
    when (_autoReport (mouse w)) report
         (mkWorld (set_xy vx vy (mouse w)) (hid w)) = Done tt w'.
Proof.
  intros E.
  destruct (Z.eq_dec (_width (mouse w)) 0) as [ZW | NZW];
    [rewrite move_traps in E by auto; discriminate |].
  destruct (Z.eq_dec (_height (mouse w)) 0) as [ZH | NZH];
    [rewrite move_traps in E by auto; discriminate |].
  destruct (Z.eq_dec (_width (mouse w)) 32767) as [EW | NW];
    [destruct (Z.eq_dec (_height (mouse w)) 32767) as [EH | NH] |].
  - rewrite move_native in E by assumption. eauto.
  - rewrite move_rescaling in E by auto. eauto.
  - rewrite move_rescaling in E by auto. eauto.
Qed.

(** No call other than [scroll] makes a zero scroll delta non-zero. *)
Lemma call_keeps_scroll_zero c w w' :
  is_scroll c = false ->
  _scroll (mouse w) = 0 ->
  call c w = Done tt w' ->
  _scroll (mouse w') = 0.
Proof.
  intros Hc Hz E.
  assert (after : forall a w0, _scroll (mouse w0) = 0 ->
            when a report w0 = Done tt w' -> _scroll (mouse w') = 0).
  { intros a w0 Hz0 E0.
    destruct (when_report a w0) as (w1 & E1 & _ & Es & _).
    rewrite E1 in E0. injection E0 as <-. rewrite Es. now destruct a. }
  destruct c as [width height a | x y | wheel | button | button | ];
    cbn [call is_scroll] in *; try discriminate.
  - injection E as <-. exact Hz.
  - apply move_done in E. destruct E as (vx & vy & E).
    eapply after; [| exact E]. exact Hz.
  - rewrite press_unfold in E. eapply after; [| exact E]. exact Hz.
  - rewrite release_unfold in E. eapply after; [| exact E]. exact Hz.
  - apply (after true w); assumption.
Qed.

Lemma calls_keep_scroll_zero cs :
  forall w w',
    forallb (fun c => negb (is_scroll c)) cs = true ->
    _scroll (mouse w) = 0 ->
    calls cs w = Done tt w' ->
    _scroll (mouse w') = 0.
Proof.
  induction cs as [| c tl IH]; intros w w' Hcs Hz E.
  - injection E as <-. exact Hz.
  - cbn [forallb] in Hcs. apply andb_true_iff in Hcs. destruct Hcs as (Hc & Htl).
    apply negb_true_iff in Hc.
    cbn [calls] in E. unfold bind in E.
    destruct (call c w) as [[] w1 | t] eqn:E1; [| discriminate].
    apply (IH w1 w' Htl); [| exact E].
    now apply (call_keeps_scroll_zero c w w1).
Qed.

(** C3.  [report] returns, leaves [_buttons], [_x], [_y], [_width],
    [_height] and [_autoReport] as they were and sets [_scroll] to 0.  Hence
    after any report emission (in particular one that carried a scroll delta
    of 5), whatever calls other than [scroll] come next, the scroll delta is
    still 0 and the next report carries 0 in its scroll byte. *)
Theorem report_clears_scroll (w : World) :
  exists w1,
    report w = Done tt w1 /\
    _buttons (mouse w1) = _buttons (mouse w) /\
    _x (mouse w1) = _x (mouse w) /\
    _y (mouse w1) = _y (mouse w) /\
    _width (mouse w1) = _width (mouse w) /\
    _height (mouse w1) = _height (mouse w) /\
    _autoReport (mouse w1) = _autoReport (mouse w) /\
    _scroll (mouse w1) = 0 /\
    forall cs w2,
      forallb (fun c => negb (is_scroll c)) cs = true ->
      calls cs w1 = Done tt w2 ->
      _scroll (mouse w2) = 0 /\
      exists w3 b0 b1 b2 b3 b4,
        report w2 = Done tt w3 /\
        last_report w3 = Some (1, [b0; b1; b2; b3; b4; 0]).
Proof.
  destruct (when_report true w)
    as (w1 & E & Eb & Es & Ex & Ey & EW & EH & Ea & _).
  exists w1. repeat (split; [assumption |]).
  intros cs w2 Hcs E2.
  assert (Hz : _scroll (mouse w2) = 0)
    by (apply (calls_keep_scroll_zero cs w1 w2); assumption).
  split; [exact Hz |].
  destruct (when_report true w2) as (w3 & E3 & _ & _ & _ & _ & _ & _ & _ & _ & Esent).
  exists w3. do 5 eexists. split; [exact E3 |].
  apply last_report_snoc with (l := sent (hid w2)).
  rewrite Esent. unfold report_buffer. rewrite Hz. reflexivity.
Qed.

(** The scroll one-shot scenario on a freshly constructed adapter (manual
    reporting): [scroll(5)], one report, then a click and a move, and the
    next report carries scroll 0. *)
Lemma report_clears_scroll_witness :
  exists w0 w1 w2 w3,
    scroll 5 (AbsMouse_ctor HID_empty) = Done tt w0 /\
    report w0 = Done tt w1 /\
    last_report w1 = Some (1, [0; 0; 0; 0; 0; 5]) /\
    calls [CallPress 1; CallMove 960 540] w1 = Done tt w2 /\
    report w2 = Done tt w3 /\
    last_report w3 = Some (1, [1; 255; 63; 255; 63; 0]).
Proof.
  eexists.
  destruct (report_clears_scroll
              (mkWorld (mkAbsMouse 0 5 0 0 1920 1080 false)
                       (AppendDescriptor HID_REPORT_DESCRIPTOR HID_empty)))
    as (w1 & E1 & _ & _ & _ & _ & _ & _ & _ & Hnext).
  exists w1.
  destruct (calls [CallPress 1; CallMove 960 540] w1) as [[] w2 | t] eqn:E2.
  - destruct (Hnext [CallPress 1; CallMove 960 540] w2)
      as (_ & w3 & b0 & b1 & b2 & b3 & b4 & E3 & L3).
    + reflexivity.
    + exact E2.
    + exists w2, w3.
      split; [reflexivity |]. split; [exact E1 |].
      vm_compute in E1. injection E1 as <-.
      split; [reflexivity |]. split; [reflexivity |]. split; [exact E3 |].
      vm_compute in E2. injection E2 as <-.
      vm_compute in E3. injection E3 as <-. reflexivity.
  - vm_compute in E1. injection E1 as <-. vm_compute in E2. discriminate.
Defined.

(** C4.  [report] hands the transport exactly one report: report id 1 with
    a buffer of six bytes, [_buttons] in byte 0, [_x] little-endian in
    bytes 1 and 2, [_y] little-endian in bytes 3 and 4, and the signed
    scroll delta (as its two's complement byte) in byte 5.  Nothing else is
    handed to the transport. *)
Theorem report_buffer_layout (w : World) :
  typed (mouse w) ->
  exists w' x_lo x_hi y_lo y_hi sc,
    report w = Done tt w' /\
    sent (hid w') =
      sent (hid w) ++ [(1, [_buttons (mouse w); x_lo; x_hi; y_lo; y_hi; sc])] /\
    descriptors (hid w') = descriptors (hid w) /\
    length [_buttons (mouse w); x_lo; x_hi; y_lo; y_hi; sc] = 6%nat /\
    Forall u8 [_buttons (mouse w); x_lo; x_hi; y_lo; y_hi; sc] /\
    x_lo = _x (mouse w) mod 256 /\ x_hi = _x (mouse w) / 256 /\
    x_lo + 256 * x_hi = _x (mouse w) /\
    y_lo = _y (mouse w) mod 256 /\ y_hi = _y (mouse w) / 256 /\
    y_lo + 256 * y_hi = _y (mouse w) /\
    signed8 sc = _scroll (mouse w).
Proof.
  intros [Tb Ts Tx Ty _ _].
  destruct (when_report true w)
    as (w' & E & _ & _ & _ & _ & _ & _ & _ & Edesc & Esent).
  exists w', (Z.land (_x (mouse w)) 0xFF), (Z.land (Z.shiftr (_x (mouse w)) 8) 0xFF),
         (Z.land (_y (mouse w)) 0xFF), (Z.land (Z.shiftr (_y (mouse w)) 8) 0xFF),
         (wrap8 (_scroll (mouse w))).
  split; [exact E |]. split; [exact Esent |]. split; [exact Edesc |].
  split; [reflexivity |].
  split.
  { repeat apply Forall_cons; try apply Forall_nil;
      try apply low_byte_u8; try apply wrap8_u8; assumption. }
  repeat split;
    auto using low_byte, high_byte, little_endian, signed8_wrap8.
Qed.

(** The layout on an adapter holding buttons 5, scroll -2,
    x = 0x1234 and y = 0x7FFF. *)
Lemma report_buffer_layout_witness :
  exists w',
    report (mkWorld (mkAbsMouse 5 (-2) 0x1234 0x7FFF 1920 1080 false) HID_empty)
      = Done tt w' /\
    sent (hid w') = [(1, [5; 0x34; 0x12; 0xFF; 0x7F; 0xFE])].
Proof.
  destruct (report_buffer_layout
              (mkWorld (mkAbsMouse 5 (-2) 0x1234 0x7FFF 1920 1080 false) HID_empty))
    as (w' & x_lo & x_hi & y_lo & y_hi & sc & E & _).
  - constructor; cbn; unfold u8, i8, u16, u32; lia.
  - exists w'. split; [exact E |].
    vm_compute in E. injection E as <-. reflexivity.
Defined.

(** ** Buttons *)

(** C5, as amended.  For a button mask [b] and any button state, [press(b)]
    sets the button state to [buttons OR b] and [release(b)] sets it to
    [buttons AND NOT b]; each is idempotent on the adapter state; neither
    modifies [_x], [_y], [_width], [_height] or [_autoReport].  [_scroll] is
    left alone when automatic reporting is off and is reset to 0 by the
    triggered report when it is on. *)
Theorem press_release_buttons (w : World) (b : Z) :
  typed (mouse w) -> u8 b ->
  exists wp wr,
    press b w = Done tt wp /\
    release b w = Done tt wr /\
    _buttons (mouse wp) = Z.lor (_buttons (mouse w)) b /\
    _buttons (mouse wr) = Z.land (_buttons (mouse w)) (Z.lnot b) /\
    (_x (mouse wp) = _x (mouse w) /\ _y (mouse wp) = _y (mouse w) /\
     _width (mouse wp) = _width (mouse w) /\
     _height (mouse wp) = _height (mouse w) /\
     _autoReport (mouse wp) = _autoReport (mouse w)) /\
    (_x (mouse wr) = _x (mouse w) /\ _y (mouse wr) = _y (mouse w) /\
     _width (mouse wr) = _width (mouse w) /\
     _height (mouse wr) = _height (mouse w) /\
     _autoReport (mouse wr) = _autoReport (mouse w)) /\
    _scroll (mouse wp) = (if _autoReport (mouse w) then 0 else _scroll (mouse w)) /\
    _scroll (mouse wr) = (if _autoReport (mouse w) then 0 else _scroll (mouse w)) /\
    (exists wpp, press b wp = Done tt wpp /\ mouse wpp = mouse wp) /\
    (exists wrr, release b wr = Done tt wrr /\ mouse wrr = mouse wr).
Proof.
  intros [Tb _ _ _ _ _] Hb.
  destruct w as [[B s x y W H a] h]. cbn [mouse _buttons] in Tb.
  pose proof (lor_wrap8 B b Tb Hb) as Hor.
  pose proof (land_lnot_wrap8 B b Tb) as Hand.
  assert (Hor2 : wrap8 (Z.lor (wrap8 (Z.lor B b)) b) = wrap8 (Z.lor B b))
    by now rewrite Hor, lor_twice.
  assert (Hand2 : wrap8 (Z.land (wrap8 (Z.land B (Z.lnot b))) (Z.lnot b))
                  = wrap8 (Z.land B (Z.lnot b)))
    by now rewrite Hand, land_lnot_twice.
  destruct a.
  - (* automatic reporting *)
    do 2 eexists. split; [reflexivity |]. split; [reflexivity |].
    cbn [mouse hid _buttons _scroll _x _y _width _height _autoReport
         set_buttons set_scroll].
    repeat split; try assumption;
      eexists; (split; [reflexivity |]);
      unfold set_scroll, set_buttons;
      cbn [mouse _buttons _scroll _x _y _width _height _autoReport];
      rewrite ?Hor2, ?Hand2; reflexivity.
  - (* manual reporting *)
    do 2 eexists. split; [reflexivity |]. split; [reflexivity |].
    cbn [mouse hid _buttons _scroll _x _y _width _height _autoReport
         set_buttons set_scroll].
    repeat split; try assumption;
      eexists; (split; [reflexivity |]);
      unfold set_scroll, set_buttons;
      cbn [mouse _buttons _scroll _x _y _width _height _autoReport];
      rewrite ?Hor2, ?Hand2; reflexivity.
Qed.

(** Pressing and releasing the right button while the left one is held. *)
Lemma press_release_buttons_witness :
  exists wp wr,
    press MOUSE_RIGHT (mkWorld (mkAbsMouse 1 0 7 9 1920 1080 false) HID_empty)
      = Done tt wp /\
    release MOUSE_RIGHT (mkWorld (mkAbsMouse 1 0 7 9 1920 1080 false) HID_empty)
      = Done tt wr /\
    _buttons (mouse wp) = 3 /\ _buttons (mouse wr) = 1.
Proof.
  destruct (press_release_buttons
              (mkWorld (mkAbsMouse 1 0 7 9 1920 1080 false) HID_empty) MOUSE_RIGHT)
    as (wp & wr & Ep & Er & Bp & Br & _).
  - constructor; cbn; unfold u8, i8, u16, u32; lia.
  - unfold u8, MOUSE_RIGHT; lia.
  - exists wp, wr. rewrite Bp, Br. repeat split; assumption.
Defined.

(** C5 as stated fails in its last part: on an adapter that holds a scroll
    delta and reports automatically, [press] and [release] reset [_scroll].
    Such a state is reached by [scroll(5)] on a fresh adapter followed by
    [init(32767, 32767, true)]. *)
Lemma press_resets_scroll_counterexample :
  exists w wp wr,
    calls [CallScroll 5; CallInit 32767 32767 true] (AbsMouse_ctor HID_empty)
      = Done tt w /\
    press 1 w = Done tt wp /\
    release 1 w = Done tt wr /\
    _scroll (mouse w) = 5 /\
    _scroll (mouse wp) = 0 /\ _scroll (mouse wp) <> _scroll (mouse w) /\
    _scroll (mouse wr) = 0 /\ _scroll (mouse wr) <> _scroll (mouse w).
Proof.
  do 3 eexists.
  split; [vm_compute; reflexivity |].
  split; [vm_compute; reflexivity |].
  split; [vm_compute; reflexivity |].
  cbn. repeat split; discriminate.
Qed.

(** ** The constructor and the defaults of [init] *)

(** C9.  A default-constructed adapter has buttons 0, scroll 0, x = y = 0,
    reference resolution 1920x1080 and automatic reporting off: [move]
    rescales against 1920x1080 and none of [move], [scroll], [press],
    [release] hands a report to the transport.  The default arguments of
    [init] (32767, 32767, true) differ from this, and apply once [init] is
    called: then [move] stores its arguments unchanged and reports. *)
Theorem default_constructed (h : HID_) (x y wheel b : Z) :
  u16 x -> u16 y ->
  mouse (AbsMouse_ctor h) = mkAbsMouse 0 0 0 0 1920 1080 false /\
  (exists w', move x y (AbsMouse_ctor h) = Done tt w' /\
     _x (mouse w') = (32767 * x / 1920) mod 65536 /\
     _y (mouse w') = (32767 * y / 1080) mod 65536 /\
     sent (hid w') = sent h) /\
  (exists w', scroll wheel (AbsMouse_ctor h) = Done tt w' /\ sent (hid w') = sent h) /\
  (exists w', press b (AbsMouse_ctor h) = Done tt w' /\ sent (hid w') = sent h) /\
  (exists w', release b (AbsMouse_ctor h) = Done tt w' /\ sent (hid w') = sent h) /\
  (init_default_width, init_default_height, init_default_autoReport)
    = (32767, 32767, true) /\
  init_default_width <> _width (mouse (AbsMouse_ctor h)) /\
  init_default_height <> _height (mouse (AbsMouse_ctor h)) /\
  init_default_autoReport <> _autoReport (mouse (AbsMouse_ctor h)) /\
  (exists w1 w2,
     init init_default_width init_default_height init_default_autoReport
          (AbsMouse_ctor h) = Done tt w1 /\
     _width (mouse w1) = 32767 /\ _height (mouse w1) = 32767 /\
     _autoReport (mouse w1) = true /\
     move x y w1 = Done tt w2 /\
     _x (mouse w2) = x /\ _y (mouse w2) = y /\
     sent (hid w2) = sent h ++ [(1, report_buffer (mkAbsMouse 0 0 x y 32767 32767 true))]).
Proof.
  intros Hx Hy.
  split; [reflexivity |].
  split.
  { rewrite move_rescaling by (cbn; first [left; discriminate | discriminate]).
    eexists. split; [reflexivity |].
    cbn [AbsMouse_ctor mouse hid _x _y _width _height set_xy AppendDescriptor sent].
    rewrite !rescale_mod by (assumption || lia). auto. }
  split; [eexists; split; reflexivity |].
  split; [eexists; split; reflexivity |].
  split; [eexists; split; reflexivity |].
  split; [reflexivity |].
  split; [discriminate |]. split; [discriminate |]. split; [discriminate |].
  do 2 eexists. split; [reflexivity |].
  split; [reflexivity |]. split; [reflexivity |]. split; [reflexivity |].
  split; [reflexivity |]. repeat split.
Qed.

(** The theorem at the centre of a 1920x1080 screen. *)
Lemma default_constructed_witness :
  exists w',
    move 960 540 (AbsMouse_ctor HID_empty) = Done tt w' /\
    _x (mouse w') = 16383 /\ _y (mouse w') = 16383 /\ sent (hid w') = [].
Proof.
  destruct (default_constructed HID_empty 960 540 0 0)
    as (_ & (w' & E & Ex & Ey & Es) & _).
  - unfold u16; lia.
  - unfold u16; lia.
  - exists w'. rewrite Ex, Ey, Es. repeat split. exact E.
Defined.

(** ** Division by zero in [move] *)

Lemma init_returns width height a w :
  init width height a w =
  Done tt (mkWorld (set_config width height a (mouse w)) (hid w)).
Proof. reflexivity. Qed.

(** C10.  [move] divides by [_width] and [_height] without a guard on the
    rescaling branch: it traps exactly when one of them is 0 (which puts it
    on that branch) and returns exactly when both are at least 1.  [init]
    stores a zero width or height like any other, after which [move]
    traps. *)
Theorem move_needs_positive_reference (w : World) (x y : Z) :
  typed (mouse w) ->
  (move x y w = Stuck DivisionByZero <->
     _width (mouse w) = 0 \/ _height (mouse w) = 0) /\
  ((exists w', move x y w = Done tt w') <->
     1 <= _width (mouse w) /\ 1 <= _height (mouse w)) /\
  (_width (mouse w) = 0 \/ _height (mouse w) = 0 ->
     _width (mouse w) <> 32767 \/ _height (mouse w) <> 32767) /\
  (forall width height a,
     u16 width -> u16 height ->
     exists w0,
       init width height a w = Done tt w0 /\
       _width (mouse w0) = width /\ _height (mouse w0) = height /\
       typed (mouse w0) /\
       (width = 0 \/ height = 0 -> move x y w0 = Stuck DivisionByZero)).
Proof.
  intros Hty. pose proof Hty as [_ _ _ _ TW TH]. unfold u32 in TW, TH.
  split; [| split; [| split]].
  - split; [| apply move_traps].
    intros E.
    destruct (Z.eq_dec (_width (mouse w)) 0) as [| NW]; [auto |].
    destruct (Z.eq_dec (_height (mouse w)) 0) as [| NH]; [auto |].
    destruct (move_returns x y w NW NH) as (w' & E').
    rewrite E' in E. discriminate.
  - split.
    + intros (w' & E).
      destruct (Z.eq_dec (_width (mouse w)) 0) as [ZW | NW];
        [rewrite move_traps in E by auto; discriminate |].
      destruct (Z.eq_dec (_height (mouse w)) 0) as [ZH | NH];
        [rewrite move_traps in E by auto; discriminate |].
      lia.
    + intros (HW & HH). apply move_returns; lia.
  - intros [-> | ->]; [left | right]; discriminate.
  - intros width height a Hw Hh. rewrite init_returns.
    eexists. split; [reflexivity |].
    split; [reflexivity |]. split; [reflexivity |].
    split.
    + destruct Hty. constructor; cbn; try assumption; unfold u16, u32 in *; lia.
    + intros Hz. apply move_traps. exact Hz.
Qed.

(** [init(0, 1080)] is accepted, and the next [move] divides by zero. *)
Lemma move_needs_positive_reference_witness :
  exists w0,
    init 0 1080 true (AbsMouse_ctor HID_empty) = Done tt w0 /\
    _width (mouse w0) = 0 /\
    move 10 10 w0 = Stuck DivisionByZero.
Proof.
  destruct (move_needs_positive_reference (AbsMouse_ctor HID_empty) 10 10)
    as (_ & _ & _ & Hinit).
  - constructor; cbn; unfold u8, i8, u16, u32; lia.
  - destruct (Hinit 0 1080 true) as (w0 & E & EW & _ & _ & Htrap).
    + unfold u16; lia.
    + unfold u16; lia.
    + exists w0. split; [exact E |]. split; [exact EW |].
      apply Htrap. left. reflexivity.
Defined.

(** ** Frame symbols *)

Lemma FrameType_value_inj t1 t2 :
  FrameType_value t1 = FrameType_value t2 -> t1 = t2.
Proof. destruct t1, t2; cbn; intros E; first [reflexivity | discriminate E]. Qed.

(** C6.  The frame type codes are 0xA0 relative mouse move, 0xAA absolute
    mouse move, 0xAB mouse scroll, 0xAC mouse press, 0xAD mouse release,
    0xAE set resolution, 0xBB key press, 0xBC key release; the scroll code
    equals the frame start marker [FRAME_START], 0xAB. *)
Theorem frame_type_codes :
  FrameType_value FRAME_TYPE_REL_MOUSE_MOVE = 0xA0 /\
  FrameType_value FRAME_TYPE_MOUSE_MOVE = 0xAA /\
  FrameType_value FRAME_TYPE_MOUSE_SCROLL = 0xAB /\
  FrameType_value FRAME_TYPE_MOUSE_PRESS = 0xAC /\
  FrameType_value FRAME_TYPE_MOUSE_RELEASE = 0xAD /\
  FrameType_value FRAME_TYPE_MOUSE_RESOLUTION = 0xAE /\
  FrameType_value FRAME_TYPE_KEY_PRESS = 0xBB /\
  FrameType_value FRAME_TYPE_KEY_RELEASE = 0xBC /\
  FRAME_START = 0xAB /\
  FrameType_value FRAME_TYPE_MOUSE_SCROLL = FRAME_START.
Proof. repeat split. Qed.

(** ** The XOR checksum *)

Lemma lxor_u8 a b : u8 a -> u8 b -> u8 (Z.lxor a b).
Proof.
  unfold u8. intros (Ha0 & Ha) (Hb0 & Hb).
  assert (small : forall z, 0 <= z < 256 -> Z.log2 z < 8).
  { intros z (Hz0 & Hz). destruct (Z.eq_dec z 0) as [-> | Hnz]; [reflexivity |].
    apply Z.log2_lt_pow2; [lia | exact Hz]. }
  assert (Hnn : 0 <= Z.lxor a b) by (apply Z.lxor_nonneg; tauto).
  split; [exact Hnn |].
  destruct (Z.eq_dec (Z.lxor a b) 0) as [-> | Hnz]; [lia |].
  change 256 with (2 ^ 8). apply Z.log2_lt_pow2; [lia |].
  pose proof (Z.log2_lxor a b Ha0 Hb0).
  pose proof (small a (conj Ha0 Ha)). pose proof (small b (conj Hb0 Hb)). lia.
Qed.

Lemma bit_u8 k : 0 <= k < 8 -> u8 (Z.shiftl 1 k).
Proof.
  intros Hk. rewrite Z.shiftl_1_l. unfold u8. split; [apply Z.pow_nonneg; lia |].
  change 256 with (2 ^ 8). apply Z.pow_lt_mono_r; lia.
Qed.

Lemma bit_nonzero k : 0 <= k -> Z.shiftl 1 k <> 0.
Proof. intros Hk. rewrite Z.shiftl_1_l. apply Z.pow_nonzero; lia. Qed.

Lemma lxor_changes a m : m <> 0 -> Z.lxor a m <> a.
Proof.
  intros Hm E. apply Hm.
  rewrite <- (Z.lxor_0_l m), <- (Z.lxor_nilpotent a), Z.lxor_assoc, E.
  reflexivity.
Qed.

Lemma flip_bit_length i k data : length (flip_bit i k data) = length data.
Proof.
  revert i. induction data as [| b tl IH]; intros [| j]; cbn; auto.
Qed.

Lemma flip_bit_u8 i k data :
  0 <= k < 8 -> Forall u8 data -> Forall u8 (flip_bit i k data).
Proof.
  intros Hk Hdata. revert i.
  induction Hdata as [| b tl Hb Htl IH]; intros [| j]; cbn; constructor; auto.
  apply lxor_u8; [exact Hb | now apply bit_u8].
Qed.

(** Inverting one bit of one data byte inverts that bit of the checksum. *)
Lemma xor_checksum_flip data :
  forall i k, (i < length data)%nat ->
    xor_checksum (flip_bit i k data) = Z.lxor (xor_checksum data) (Z.shiftl 1 k).
Proof.
  induction data as [| b tl IH]; intros i k Hi; cbn in Hi; [lia |].
  destruct i as [| j]; cbn [flip_bit xor_checksum].
  - rewrite !Z.lxor_assoc. f_equal. apply Z.lxor_comm.
  - rewrite IH by lia. now rewrite Z.lxor_assoc.
Qed.

(** ** The decoder *)

Lemma decode_cons d b tl :
  decode d (b :: tl) =
  (fst (decode (fst (decode_byte d b)) tl),
   match snd (decode_byte d b) with
   | Some fr => fr :: snd (decode (fst (decode_byte d b)) tl)
   | None => snd (decode (fst (decode_byte d b)) tl)
   end).
Proof.
  cbn [decode]. destruct (decode_byte d b) as [d' f].
  cbn [fst snd]. destruct (decode d' tl). reflexivity.
Qed.

(** Accumulation: once the declared number of bytes is in, the decoder is
    idle again and has emitted what [complete] makes of the buffer. *)
Lemma decode_data rest :
  forall buf L,
    rest <> [] ->
    Z.of_nat (length buf + length rest) = L ->
    decode (mkDecoder AwaitingData L buf) rest =
    (idle, match complete (buf ++ rest) with Some f => [f] | None => [] end).
Proof.
  induction rest as [| b tl IH]; intros buf L Hne HL; [contradiction |].
  rewrite decode_cons.
  unfold decode_byte. cbn [state buffer declared].
  rewrite length_app. cbn [length] in *.
  destruct tl as [| c tl']; cbn [length] in HL.
  - destruct (Z.ltb_spec (Z.of_nat (length buf + 1)) L); [lia |].
    cbn [fst snd decode]. now destruct (complete (buf ++ [b])).
  - destruct (Z.ltb_spec (Z.of_nat (length buf + 1)) L); [| lia].
    cbn [fst snd].
    rewrite (IH (buf ++ [b]) L).
    + now rewrite <- app_assoc.
    + discriminate.
    + rewrite length_app. cbn [length] in *. lia.
Qed.

Lemma complete_snoc data c :
  complete (data ++ [c]) =
  if xor_checksum data =? c then
    match data with [] => None | t :: p => Some (mkFrame t p c) end
  else None.
Proof. unfold complete. now rewrite removelast_last, last_last. Qed.

(** A frame on the wire, fed to an idle decoder: it is emitted exactly when
    its last byte is the XOR of its data bytes. *)
Lemma decode_wire t p c :
  (length p <= 4)%nat ->
  decode idle (wire (t :: p) c) =
  (idle, if xor_checksum (t :: p) =? c then [mkFrame t p c] else []).
Proof.
  intros Hlen. unfold wire.
  assert (HL : 2 <= Z.of_nat (length (t :: p) + 1) <= 6) by (cbn [length]; lia).
  assert (start : decode_byte idle FRAME_START = (mkDecoder AwaitingLength 0 [], None))
    by reflexivity.
  assert (len : decode_byte (mkDecoder AwaitingLength 0 [])
                            (Z.of_nat (length (t :: p) + 1))
                = (mkDecoder AwaitingData (Z.of_nat (length (t :: p) + 1)) [], None)).
  { unfold decode_byte. cbn [state]. unfold MAX_DATA_LENGTH.
    destruct (Z.eqb_spec (Z.of_nat (length (t :: p) + 1)) 0); [lia |].
    destruct (Z.ltb_spec 6 (Z.of_nat (length (t :: p) + 1))); [lia |].
    reflexivity. }
  rewrite decode_cons, start. cbn [fst snd].
  rewrite decode_cons, len. cbn [fst snd].
  rewrite decode_data.
  - rewrite app_nil_l, (complete_snoc (t :: p) c).
    now destruct (xor_checksum (t :: p) =? c).
  - destruct p; discriminate.
  - cbn [length]. rewrite length_app. cbn [length]. lia.
Qed.

(** The pipeline dispatches the frames the decoder emits, in order, and
    nothing else. *)
Lemma process_decode {Hid : Type} (dispatch : Frame -> Hid -> Hid) bytes :
  forall d h,
    process dispatch bytes (d, h) =
    (fst (decode d bytes),
     fold_left (fun h' f => dispatch f h') (snd (decode d bytes)) h).
Proof.
  induction bytes as [| b tl IH]; intros d h; [reflexivity |].
  unfold process in *. cbn [fold_left]. rewrite decode_cons.
  unfold process_byte at 2. cbn [fst snd].
  destruct (decode_byte d b) as [d' [f |]]; cbn [fst snd]; now rewrite IH.
Qed.

Lemma decoder_ok_step d b :
  u8 b -> decoder_ok d -> decoder_ok (fst (decode_byte d b)).
Proof.
  intros Hb Hok. unfold decode_byte, decoder_ok, u8 in *.
  destruct (state d) eqn:Hst.
  - destruct (b =? FRAME_START); cbn; discriminate.
  - destruct (Z.eqb_spec b 0); cbn [orb]; [cbn; discriminate |].
    destruct (Z.ltb_spec MAX_DATA_LENGTH b); cbn; [discriminate |].
    intros _. lia.
  - destruct (Hok eq_refl) as (HL & Hlen).
    destruct (Z.ltb_spec (Z.of_nat (length (buffer d ++ [b]))) (declared d));
      cbn; [auto | discriminate].
  - destruct (b =? FRAME_START); cbn; discriminate.
Qed.

(** A frame the decoder emits is the accumulated bytes cut into type,
    payload and checksum. *)
Lemma complete_some rest f :
  complete rest = Some f ->
  rest = frame_type f :: payload f ++ [checksum f] /\
  checksum f = xor_checksum (frame_type f :: payload f).
Proof.
  unfold complete. intros E.
  destruct (Z.eqb_spec (xor_checksum (removelast rest)) (last rest 0)) as [Ex |];
    [| discriminate].
  destruct (removelast rest) as [| t p] eqn:Er; [discriminate |].
  injection E as <-. cbn [frame_type payload checksum].
  split; [| now rewrite Ex].
  assert (Hne : rest <> []) by (intros ->; discriminate).
  rewrite (app_removelast_last 0 Hne) at 1. now rewrite Er.
Qed.

(** C7.  The maximum declared data length is 6 (a type byte, at most 4
    payload bytes and a checksum byte) and the maximum frame length, with
    the start marker and the length byte, is 8.  A decoder awaiting the
    length discards the frame and returns to [AwaitingStart] on a declared
    length of zero or more than 6; on a length from 1 to 6 it accumulates
    that many bytes, so a frame on the wire takes at most 8 bytes and an
    emitted frame carries at most 4 payload bytes. *)
Theorem declared_length_bounds (d : Decoder) (L : Z) :
  state d = AwaitingLength ->
  MAX_DATA_LENGTH = 6 /\ MAX_DATA_LENGTH = 1 + 4 + 1 /\
  MAX_FRAME_LENGTH = 8 /\ MAX_FRAME_LENGTH = MAX_DATA_LENGTH + 2 /\
  (L = 0 \/ MAX_DATA_LENGTH < L ->
     decode_byte d L = (idle, None) /\ state idle = AwaitingStart) /\
  (1 <= L <= MAX_DATA_LENGTH ->
     decode_byte d L = (mkDecoder AwaitingData L [], None) /\
     forall rest,
       Z.of_nat (length rest) = L ->
       decode (mkDecoder AwaitingData L []) rest =
         (idle, match complete rest with Some f => [f] | None => [] end) /\
       Z.of_nat (length (FRAME_START :: L :: rest)) <= MAX_FRAME_LENGTH /\
       forall f, complete rest = Some f ->
                 (length (payload f) <= 4)%nat /\
                 Z.of_nat (1 + length (payload f) + 1) = L).
Proof.
  intros Hst.
  do 4 (split; [reflexivity |]).
  unfold decode_byte. rewrite Hst. unfold MAX_DATA_LENGTH. split.
  - intros [-> | HL]; [split; reflexivity |].
    destruct (Z.ltb_spec 6 L); [| lia].
    now rewrite orb_true_r.
  - intros HL.
    destruct (Z.eqb_spec L 0); [lia |].
    destruct (Z.ltb_spec 6 L); [lia |].
    split; [reflexivity |].
    intros rest Hrest. split; [| split].
    + apply (decode_data rest [] L); [| exact Hrest].
      intros ->. cbn in Hrest. lia.
    + cbn [length]. unfold MAX_FRAME_LENGTH, MAX_DATA_LENGTH. cbn. lia.
    + intros f Hf. apply complete_some in Hf. destruct Hf as (-> & _).
      cbn [length] in Hrest. rewrite length_app in Hrest. cbn [length] in Hrest.
      lia.
Qed.

(** A declared length of 7 is discarded; a declared length of 3 is
    accepted and the frame [AC 01 AD] that follows is emitted. *)
Lemma declared_length_bounds_witness :
  decode_byte (mkDecoder AwaitingLength 0 []) 7 = (idle, None) /\
  decode_byte (mkDecoder AwaitingLength 0 []) 3
    = (mkDecoder AwaitingData 3 [], None) /\
  decode (mkDecoder AwaitingData 3 []) [0xAC; 0x01; 0xAD]
    = (idle, [mkFrame 0xAC [0x01] 0xAD]).
Proof.
  destruct (declared_length_bounds (mkDecoder AwaitingLength 0 []) 7 eq_refl)
    as (_ & _ & _ & _ & Hbad & _).
  destruct (declared_length_bounds (mkDecoder AwaitingLength 0 []) 3 eq_refl)
    as (_ & _ & _ & _ & _ & Hgood).
  destruct Hbad as (Ebad & _); [right; unfold MAX_DATA_LENGTH; lia |].
  destruct Hgood as (Egood & Hrest); [unfold MAX_DATA_LENGTH; lia |].
  destruct (Hrest [0xAC; 0x01; 0xAD] eq_refl) as (Edec & _).
  split; [exact Ebad |]. split; [exact Egood |]. exact Edec.
Defined.

(** C8.  The checksum of a frame is the XOR of its data bytes (the type
    byte and the payload, not the checksum): for a frame with 1 to 5 data
    bytes, an idle decoder emits it exactly when its last byte equals that
    XOR.  Inverting any single bit of any data byte of a well-formed frame
    changes the XOR, so the decoder drops the frame and is idle again, and
    the pipeline leaves the HID side as it was, whatever the dispatcher. *)
Theorem corrupted_frame_dropped (data : list Z) (i : nat) (k : Z) :
  (1 <= length data <= 5)%nat ->
  Forall u8 data ->
  (i < length data)%nat ->
  0 <= k < 8 ->
  (forall c,
     decode idle (wire data c) =
     (idle, if xor_checksum data =? c
            then [mkFrame (hd 0 data) (tl data) c] else [])) /\
  decode idle (encode data) =
    (idle, [mkFrame (hd 0 data) (tl data) (xor_checksum data)]) /\
  Forall u8 (flip_bit i k data) /\
  length (flip_bit i k data) = length data /\
  xor_checksum (flip_bit i k data) <> xor_checksum data /\
  decode idle (wire (flip_bit i k data) (xor_checksum data)) = (idle, []) /\
  (forall (Hid : Type) (dispatch : Frame -> Hid -> Hid) (h : Hid),
     process dispatch (wire (flip_bit i k data) (xor_checksum data)) (idle, h)
     = (idle, h)).
Proof.
  intros Hlen Hu8 Hi Hk.
  assert (accept : forall c,
    decode idle (wire data c) =
    (idle, if xor_checksum data =? c
           then [mkFrame (hd 0 data) (tl data) c] else [])).
  { destruct data as [| t p]; cbn [length] in Hlen; [lia |].
    intros c. cbn [hd tl]. apply decode_wire. lia. }
  assert (changed : xor_checksum (flip_bit i k data) <> xor_checksum data).
  { rewrite xor_checksum_flip by assumption.
    apply lxor_changes. apply bit_nonzero. lia. }
  assert (dropped :
    decode idle (wire (flip_bit i k data) (xor_checksum data)) = (idle, [])).
  { pose proof (flip_bit_length i k data) as Hfl.
    destruct (flip_bit i k data) as [| t p] eqn:Ef; cbn [length] in Hfl; [lia |].
    rewrite decode_wire by lia.
    destruct (Z.eqb_spec (xor_checksum (t :: p)) (xor_checksum data));
      [contradiction | reflexivity]. }
  split; [exact accept |].
  split; [unfold encode; rewrite accept, Z.eqb_refl; reflexivity |].
  split; [apply flip_bit_u8; assumption |].
  split; [apply flip_bit_length |].
  split; [exact changed |].
  split; [exact dropped |].
  intros Hid dispatch h. rewrite process_decode, dropped. reflexivity.
Qed.

(** The press frame [AB 03 AC 01 AD] is emitted; with bit 0 of its payload
    byte inverted ([AB 03 AC 00 AD]) it is dropped and a recording
    dispatcher has seen nothing. *)
Lemma corrupted_frame_dropped_witness :
  decode idle [0xAB; 0x03; 0xAC; 0x01; 0xAD]
    = (idle, [mkFrame 0xAC [0x01] 0xAD]) /\
  decode idle [0xAB; 0x03; 0xAC; 0x00; 0xAD] = (idle, []) /\
  process record_frame [0xAB; 0x03; 0xAC; 0x00; 0xAD] (idle, []) = (idle, []).
Proof.
  destruct (corrupted_frame_dropped [0xAC; 0x01] 1 0)
    as (_ & Hgood & _ & _ & _ & Hbad & Hhid).
  - cbn. lia.
  - repeat constructor; unfold u8; lia.
  - cbn. lia.
  - lia.
  - split; [exact Hgood |]. split; [exact Hbad |].
    exact (Hhid (list Frame) record_frame []).
Defined.

(** ** Reachable adapter states are well typed

    The theorems above that assume [typed] therefore apply to every state
    the adapter gets into from its constructor. *)

Lemma typed_ctor h : typed (mouse (AbsMouse_ctor h)).
Proof. constructor; cbn; unfold u8, i8, u16, u32; lia. Qed.

Lemma when_report_typed a w w' :
  typed (mouse w) -> when a report w = Done tt w' -> typed (mouse w').
Proof.
  intros [Tb Ts Tx Ty TW TH] E.
  destruct (when_report a w) as (w1 & E1 & Eb & Es & Ex & Ey & EW & EH & _).
  rewrite E1 in E. injection E as <-.
  constructor; rewrite ?Eb, ?Es, ?Ex, ?Ey, ?EW, ?EH; try assumption.
  destruct a; [unfold i8; lia | assumption].
Qed.

Lemma call_preserves_typed c w w' :
  call_typed c -> typed (mouse w) -> call c w = Done tt w' -> typed (mouse w').
Proof.
  intros Hc Hty E. pose proof Hty as [Tb Ts Tx Ty TW TH].
  destruct c as [width height a | x y | wheel | button | button | ];
    cbn [call call_typed] in *.
  - destruct Hc as (Hw & Hh). rewrite init_returns in E. injection E as <-.
    constructor; cbn; try assumption; unfold u16, u32 in *; lia.
  - destruct Hc as (Hx & Hy).
    destruct (Z.eq_dec (_width (mouse w)) 0) as [ZW | NZW];
      [rewrite move_traps in E by auto; discriminate |].
    destruct (Z.eq_dec (_height (mouse w)) 0) as [ZH | NZH];
      [rewrite move_traps in E by auto; discriminate |].
    destruct (Z.eq_dec (_width (mouse w)) 32767) as [EW | NW];
      [destruct (Z.eq_dec (_height (mouse w)) 32767) as [EH | NH] |].
    + rewrite move_native in E by assumption.
      apply when_report_typed in E; [exact E |]. constructor; cbn; assumption.
    + rewrite move_rescaling in E by auto.
      apply when_report_typed in E; [exact E |].
      constructor; cbn; try assumption; apply wrap16_u16.
    + rewrite move_rescaling in E by auto.
      apply when_report_typed in E; [exact E |].
      constructor; cbn; try assumption; apply wrap16_u16.
  - rewrite scroll_unfold in E.
    apply when_report_typed in E; [exact E |]. constructor; cbn; assumption.
  - rewrite press_unfold in E.
    apply when_report_typed in E; [exact E |].
    constructor; cbn; try assumption. apply wrap8_u8.
  - rewrite release_unfold in E.
    apply when_report_typed in E; [exact E |].
    constructor; cbn; try assumption. apply wrap8_u8.
  - now apply (when_report_typed true w w').
Qed.

Lemma calls_preserve_typed cs :
  forall w w',
    Forall call_typed cs -> typed (mouse w) ->
    calls cs w = Done tt w' -> typed (mouse w').
Proof.
  induction cs as [| c tl IH]; intros w w' Hcs Hty E.
  - injection E as <-. exact Hty.
  - inversion Hcs as [| ? ? Hc Htl]; subst.
    cbn [calls] in E. unfold bind in E.
    destruct (call c w) as [[] w1 | t] eqn:E1; [| discriminate].
    apply (IH w1 w' Htl); [| exact E].
    now apply (call_preserves_typed c w w1).
Qed.

(** The decoder's guarantee holds from the start. *)
Lemma decoder_ok_idle : decoder_ok idle.
Proof. unfold decoder_ok. cbn. discriminate. Qed.

(** * Further properties of the adapter *)

(** ** What one call hands to the transport *)

(** The shared tail of the mutators, seen from the state [m0] they have
    just assigned. *)
Lemma tail_effect (a : bool) (m0 : AbsMouse_) (h : HID_) (w' : World) :
  when a report (mkWorld m0 h) = Done tt w' ->
  sent (hid w') = sent h ++ (if a then [(1, report_buffer m0)] else []) /\
  descriptors (hid w') = descriptors h /\
  _scroll (mouse w') = (if a then 0 else _scroll m0) /\
  _autoReport (mouse w') = _autoReport m0 /\
  _width (mouse w') = _width m0 /\ _height (mouse w') = _height m0.
Proof.
  intros E.
  destruct (when_report a (mkWorld m0 h))
    as (w1 & E1 & _ & Es & _ & _ & EW & EH & Ea & Ed & Esent).
  rewrite E1 in E. injection E as <-. cbn [mouse hid] in *. auto 10.
Qed.

(** A [move] that returns has assigned a pair of 16-bit values. *)
Lemma move_assigns x y w w' :
  move x y w = Done tt w' ->
  exists vx vy,
    when (_autoReport (mouse w)) report
         (mkWorld (set_xy vx vy (mouse w)) (hid w)) = Done tt w' /\
    (u16 x -> u16 y -> u16 vx /\ u16 vy).
Proof.
  intros E.
  destruct (Z.eq_dec (_width (mouse w)) 0) as [ZW | NZW];
    [rewrite move_traps in E by auto; discriminate |].
  destruct (Z.eq_dec (_height (mouse w)) 0) as [ZH | NZH];
    [rewrite move_traps in E by auto; discriminate |].
  destruct (Z.eq_dec (_width (mouse w)) 32767) as [EW | NW];
    [destruct (Z.eq_dec (_height (mouse w)) 32767) as [EH | NH] |].
  - rewrite move_native in E by assumption. exists x, y. auto.
  - rewrite move_rescaling in E by auto.
    do 2 eexists. split; [exact E |]. intros _ _. split; apply wrap16_u16.
  - rewrite move_rescaling in E by auto.
    do 2 eexists. split; [exact E |]. intros _ _. split; apply wrap16_u16.
Qed.

(** Each call, whatever it is: what it appends to the log, what it leaves in
    [_scroll] and [_autoReport].  [m0] is the state the report, if any, was
    built from. *)
Lemma call_effect c w w' :
  call c w = Done tt w' ->
  exists m0,
    sent (hid w') =
      sent (hid w) ++
      (if call_reports (_autoReport (mouse w)) c then [(1, report_buffer m0)] else []) /\
    descriptors (hid w') = descriptors (hid w) /\
    _scroll m0 = (match c with CallScroll wheel => wheel | _ => _scroll (mouse w) end) /\
    _scroll (mouse w') =
      (if call_reports (_autoReport (mouse w)) c then 0 else _scroll m0) /\
    _autoReport (mouse w') = auto_after (_autoReport (mouse w)) c /\
    (is_init c = false ->
       _width (mouse w') = _width (mouse w) /\ _height (mouse w') = _height (mouse w)) /\
    (typed (mouse w) -> call_typed c -> typed m0).
Proof.
  intros E.
  destruct c as [width height a | x y | wheel | button | button | ];
    cbn [call call_reports auto_after is_init call_typed] in *.
  - rewrite init_returns in E. injection E as <-.
    exists (mouse w). cbn. rewrite app_nil_r. conjuncts; auto. discriminate.
  - apply move_assigns in E. destruct E as (vx & vy & E & Hv).
    apply tail_effect in E. destruct E as (Es & Ed & Esc & Ea & EW & EH).
    exists (set_xy vx vy (mouse w)). cbn in *. conjuncts; auto.
    intros [] (Hx & Hy); destruct (Hv Hx Hy); constructor; cbn; assumption.
  - rewrite scroll_unfold in E.
    apply tail_effect in E. destruct E as (Es & Ed & Esc & Ea & EW & EH).
    exists (set_scroll wheel (mouse w)). cbn in *. conjuncts; auto.
    intros [] Hc; constructor; cbn; assumption.
  - rewrite press_unfold in E.
    apply tail_effect in E. destruct E as (Es & Ed & Esc & Ea & EW & EH).
    eexists. split; [exact Es |]. cbn in *. conjuncts; auto.
    intros [] Hc; constructor; cbn; try assumption; apply wrap8_u8.
  - rewrite release_unfold in E.
    apply tail_effect in E. destruct E as (Es & Ed & Esc & Ea & EW & EH).
    eexists. split; [exact Es |]. cbn in *. conjuncts; auto.
    intros [] Hc; constructor; cbn; try assumption; apply wrap8_u8.
  - destruct w as [m h]. apply (tail_effect true) in E.
    destruct E as (Es & Ed & Esc & Ea & EW & EH).
    exists m. cbn in *. conjuncts; auto.
Qed.

Lemma calls_cons c tl w :
  calls (c :: tl) w =
  match call c w with Done _ w1 => calls tl w1 | Stuck t => Stuck t end.
Proof. reflexivity. Qed.

(** ** How many reports a session emits *)

(** X1.  A sequence of calls that returns only ever appends to the log of
    sent reports, never touches the registered descriptors, and appends one
    report per call to [report] plus one per [move], [scroll], [press] or
    [release] made while [_autoReport] is set; [init] itself never
    reports. *)
Theorem reports_emitted (cs : list Call) :
  forall w w',
    calls cs w = Done tt w' ->
    descriptors (hid w') = descriptors (hid w) /\
    exists new,
      sent (hid w') = sent (hid w) ++ new /\
      length new = emitted (_autoReport (mouse w)) cs.
Proof.
  induction cs as [| c tl IH]; intros w w' E.
  - injection E as <-. split; [reflexivity |]. exists []. now rewrite app_nil_r.
  - rewrite calls_cons in E.
    destruct (call c w) as [[] w1 | t] eqn:E1; [| discriminate].
    destruct (call_effect c w w1 E1) as (m0 & Es & Ed & _ & _ & Ea & _).
    destruct (IH w1 w' E) as (Ed' & new & Es' & Hlen).
    split; [congruence |].
    eexists. rewrite Es', Es, <- app_assoc. split; [reflexivity |].
    rewrite length_app, Hlen, Ea. cbn [emitted].
    now destruct (call_reports (_autoReport (mouse w)) c).
Qed.

(** A session that switches automatic reporting on and off again: five
    reports in all. *)
Lemma reports_emitted_witness :
  exists w',
    calls [CallPress 1; CallInit 800 600 true; CallMove 400 300; CallScroll 2;
           CallRelease 1; CallInit 800 600 false; CallMove 1 1; CallReport;
           CallReport]
          (AbsMouse_ctor HID_empty) = Done tt w' /\
    length (sent (hid w')) = 5%nat /\
    descriptors (hid w') = [HID_REPORT_DESCRIPTOR].
Proof.
  eexists. split; [vm_compute; reflexivity |].
  match goal with |- length (sent (hid ?w1)) = _ /\ _ =>
    destruct (reports_emitted
      [CallPress 1; CallInit 800 600 true; CallMove 400 300; CallScroll 2;
       CallRelease 1; CallInit 800 600 false; CallMove 1 1; CallReport;
       CallReport] (AbsMouse_ctor HID_empty) w1) as (Ed & new & Es & Hlen)
  end.
  - vm_compute. reflexivity.
  - split; [| exact Ed]. rewrite Es, length_app, Hlen. reflexivity.
Defined.

(** ** Every report matches the descriptor *)

Lemma report_buffer_ok m : typed m -> report_ok (1, report_buffer m).
Proof.
  intros [Tb _ _ _ _ _]. unfold report_ok, report_buffer. cbn [fst snd].
  conjuncts; [reflexivity | reflexivity |].
  repeat apply Forall_cons; try apply Forall_nil;
    try apply low_byte_u8; try apply wrap8_u8; assumption.
Qed.

(** X2.  Started in a well-typed state and called with arguments of the
    parameter types, the adapter only ever hands the transport reports with
    report id 1 and exactly six bytes, each in 0..255. *)
Theorem reports_well_formed (cs : list Call) :
  forall w w',
    Forall call_typed cs ->
    typed (mouse w) ->
    Forall report_ok (sent (hid w)) ->
    calls cs w = Done tt w' ->
    Forall report_ok (sent (hid w')).
Proof.
  induction cs as [| c tl IH]; intros w w' Hcs Hty Hlog E.
  - injection E as <-. exact Hlog.
  - inversion Hcs as [| ? ? Hc Htl]; subst.
    rewrite calls_cons in E.
    destruct (call c w) as [[] w1 | t] eqn:E1; [| discriminate].
    destruct (call_effect c w w1 E1) as (m0 & Es & _ & _ & _ & _ & _ & Hm0).
    apply (IH w1 w' Htl); [| | exact E].
    + now apply (call_preserves_typed c w w1).
    + rewrite Es. apply Forall_app. split; [exact Hlog |].
      destruct (call_reports (_autoReport (mouse w)) c); [| constructor].
      constructor; [| constructor]. apply report_buffer_ok. auto.
Qed.

Lemma reports_well_formed_witness :
  exists w',
    calls [CallInit 800 600 true; CallMove 400 300; CallScroll (-7);
           CallPress 4; CallRelease 4]
          (AbsMouse_ctor HID_empty) = Done tt w' /\
    Forall report_ok (sent (hid w')).
Proof.
  eexists. split; [vm_compute; reflexivity |].
  apply (reports_well_formed
           [CallInit 800 600 true; CallMove 400 300; CallScroll (-7);
            CallPress 4; CallRelease 4] (AbsMouse_ctor HID_empty)).
  - repeat constructor; cbn; unfold u16, u8, i8; lia.
  - constructor; cbn; unfold u8, i8, u16, u32; lia.
  - constructor.
  - vm_compute. reflexivity.
Defined.

(** ** A scroll delta is reported at most once *)

Lemma scrolled_snoc log r :
  scrolled (log ++ [r]) =
  (scrolled log + (if (scroll_byte r =? 0)%Z then 0 else 1))%nat.
Proof.
  unfold scrolled. rewrite filter_app, length_app. cbn [filter].
  now destruct (scroll_byte r =? 0).
Qed.

Lemma scroll_byte_buffer m : scroll_byte (1, report_buffer m) = wrap8 (_scroll m).
Proof. reflexivity. Qed.

(** X3.  Over any sequence of calls that returns, the number of reports
    carrying a non-zero scroll byte grows by at most the number of [scroll]
    calls (plus one if a delta was already pending at the start): a delta
    set by one [scroll] is never reported twice. *)
Theorem scroll_reported_once (cs : list Call) :
  forall w w',
    calls cs w = Done tt w' ->
    (scrolled (sent (hid w')) + pending (mouse w')
     <= scrolled (sent (hid w)) + pending (mouse w) + length (filter is_scroll cs))%nat.
Proof.
  induction cs as [| c tl IH]; intros w w' E.
  - injection E as <-. cbn. lia.
  - rewrite calls_cons in E.
    destruct (call c w) as [[] w1 | t] eqn:E1; [| discriminate].
    destruct (call_effect c w w1 E1) as (m0 & Es & _ & Es0 & Es1 & _).
    specialize (IH w1 w' E).
    assert (step : (scrolled (sent (hid w1)) + pending (mouse w1)
                    <= scrolled (sent (hid w)) + pending (mouse w)
                       + (if is_scroll c then 1 else 0))%nat).
    { assert (Hm0 : (pending m0 <= pending (mouse w) + (if is_scroll c then 1 else 0))%nat).
      { unfold pending. rewrite Es0.
        destruct c; cbn [is_scroll];
          repeat match goal with |- context [?a =? 0] => destruct (a =? 0) end; lia. }
      rewrite Es. unfold pending at 1. rewrite Es1.
      destruct (call_reports (_autoReport (mouse w)) c).
      - rewrite scrolled_snoc, scroll_byte_buffer. cbn [Z.eqb].
        unfold pending in Hm0 at 1.
        destruct (Z.eqb_spec (_scroll m0) 0) as [-> | _].
        + cbn. lia.
        + destruct (wrap8 (_scroll m0) =? 0); lia.
      - rewrite app_nil_r. fold (pending m0). lia. }
    cbn [filter]. destruct (is_scroll c); cbn [length]; lia.
Qed.

(** Two [scroll] calls and six reports: at most two reports carry a
    non-zero scroll byte. *)
Lemma scroll_reported_once_witness :
  exists w',
    calls [CallScroll 5; CallReport; CallReport; CallInit 800 600 true;
           CallScroll 3; CallPress 1; CallRelease 1; CallReport]
          (AbsMouse_ctor HID_empty) = Done tt w' /\
    length (sent (hid w')) = 6%nat /\
    (scrolled (sent (hid w')) <= 2)%nat.
Proof.
  eexists. split; [vm_compute; reflexivity |]. split; [reflexivity |].
  match goal with |- (scrolled (sent (hid ?w1)) <= _)%nat =>
    pose proof (scroll_reported_once
      [CallScroll 5; CallReport; CallReport; CallInit 800 600 true;
       CallScroll 3; CallPress 1; CallRelease 1; CallReport]
      (AbsMouse_ctor HID_empty) w1 eq_refl) as H
  end.
  cbn [AbsMouse_ctor mouse hid sent AppendDescriptor HID_empty pending _scroll
       filter is_scroll length Z.eqb] in H.
  change (scrolled []) with 0%nat in H. cbn [hid sent]. lia.
Defined.

(** ** Order and corners under rescaling *)

(** What [move] stores, on either branch, when it cannot trap. *)
Lemma move_stored x y w :
  1 <= _width (mouse w) -> 1 <= _height (mouse w) ->
  exists w',
    move x y w = Done tt w' /\
    ((_width (mouse w) = 32767 /\ _height (mouse w) = 32767 /\
      _x (mouse w') = x /\ _y (mouse w') = y) \/
     ((_width (mouse w) <> 32767 \/ _height (mouse w) <> 32767) /\
      _x (mouse w') = rescale x (_width (mouse w)) /\
      _y (mouse w') = rescale y (_height (mouse w)))).
Proof.
  intros HW HH.
  assert (tail : forall vx vy, exists w',
    when (_autoReport (mouse w)) report (mkWorld (set_xy vx vy (mouse w)) (hid w))
      = Done tt w' /\ _x (mouse w') = vx /\ _y (mouse w') = vy).
  { intros vx vy.
    match goal with |- exists _, when ?a report ?w0 = _ /\ _ =>
      destruct (when_report a w0) as (w' & E & _ & _ & Ex & Ey & _) end.
    exists w'. auto. }
  destruct (Z.eq_dec (_width (mouse w)) 32767) as [EW | NW];
    [destruct (Z.eq_dec (_height (mouse w)) 32767) as [EH | NH] |].
  - rewrite move_native by assumption.
    destruct (tail x y) as (w' & E & Ex & Ey). exists w'. auto 10.
  - rewrite move_rescaling by (auto; lia).
    destruct (tail (rescale x (_width (mouse w))) (rescale y (_height (mouse w))))
      as (w' & E & Ex & Ey). exists w'. auto 10.
  - rewrite move_rescaling by (auto; lia).
    destruct (tail (rescale x (_width (mouse w))) (rescale y (_height (mouse w))))
      as (w' & E & Ex & Ey). exists w'. auto 10.
Qed.

Lemma rescale_le ref v1 v2 :
  1 <= ref -> 0 <= v1 <= v2 -> v2 <= ref -> u16 v2 ->
  rescale v1 ref <= rescale v2 ref.
Proof.
  intros Href Hv1 Hv2 Hu. unfold u16 in Hu.
  rewrite !rescale_exact; try assumption; try (unfold u16; lia).
  - apply Z.div_le_mono; lia.
  - pose proof (quotient_in_range v2 ref Hu Href Hv2). lia.
  - assert (Hu1 : u16 v1) by (unfold u16; lia).
    pose proof (quotient_in_range v1 ref Hu1 Href). lia.
Qed.

Lemma rescale_lt ref v1 v2 :
  1 <= ref <= 32767 -> 0 <= v1 < v2 -> v2 <= ref -> u16 v2 ->
  rescale v1 ref < rescale v2 ref.
Proof.
  intros Href Hv1 Hv2 Hu. unfold u16 in Hu.
  assert (Hu1 : u16 v1) by (unfold u16; lia).
  pose proof (quotient_in_range v1 ref Hu1 (proj1 Href)).
  pose proof (quotient_in_range v2 ref Hu (proj1 Href) Hv2).
  rewrite !rescale_exact; try assumption; try lia.
  apply Z.lt_le_trans with ((32767 * v1 + 1 * ref) / ref).
  - rewrite Z.div_add by lia. lia.
  - apply Z.div_le_mono; nia.
Qed.

(** X4.  Under a reference resolution of at least 1x1, [move] preserves the
    order of the points inside it: a point not to the left of (not above)
    another is stored not to the left of (not above) it; when the width
    (height) is at most 32767, distinct columns (rows) are stored as
    distinct coordinates. *)
Theorem move_preserves_order (w : World) (x1 y1 x2 y2 : Z) :
  1 <= _width (mouse w) -> 1 <= _height (mouse w) ->
  u16 x2 -> u16 y2 ->
  0 <= x1 <= x2 -> x2 <= _width (mouse w) ->
  0 <= y1 <= y2 -> y2 <= _height (mouse w) ->
  exists w1 w2,
    move x1 y1 w = Done tt w1 /\ move x2 y2 w = Done tt w2 /\
    _x (mouse w1) <= _x (mouse w2) /\ _y (mouse w1) <= _y (mouse w2) /\
    (_width (mouse w) <= 32767 -> x1 < x2 -> _x (mouse w1) < _x (mouse w2)) /\
    (_height (mouse w) <= 32767 -> y1 < y2 -> _y (mouse w1) < _y (mouse w2)).
Proof.
  intros HW HH Ux Uy Hx1 Hx2 Hy1 Hy2.
  destruct (move_stored x1 y1 w HW HH) as (w1 & E1 & S1).
  destruct (move_stored x2 y2 w HW HH) as (w2 & E2 & S2).
  exists w1, w2. split; [exact E1 |]. split; [exact E2 |].
  destruct S1 as [(EW & EH & -> & ->) | (N1 & -> & ->)];
    destruct S2 as [(EW' & EH' & -> & ->) | (N2 & -> & ->)];
    try (exfalso; destruct N1; contradiction);
    try (exfalso; destruct N2; contradiction).
  - conjuncts; lia.
  - conjuncts; intros; first [apply rescale_le | apply rescale_lt]; auto; lia.
Qed.

Lemma move_preserves_order_witness :
  exists w1 w2,
    move 0 1079 (AbsMouse_ctor HID_empty) = Done tt w1 /\
    move 1 1080 (AbsMouse_ctor HID_empty) = Done tt w2 /\
    _x (mouse w1) < _x (mouse w2) /\ _y (mouse w1) < _y (mouse w2).
Proof.
  destruct (move_preserves_order (AbsMouse_ctor HID_empty) 0 1079 1 1080)
    as (w1 & w2 & E1 & E2 & _ & _ & Hx & Hy);
    try (cbn; unfold u16; lia).
  exists w1, w2. split; [exact E1 |]. split; [exact E2 |].
  split; [apply Hx | apply Hy]; cbn; lia.
Defined.

(** X5.  Under a reference resolution of at least 1x1 that fits the
    parameter type, [move(0, 0)] stores (0, 0) and [move(width, height)]
    stores (32767, 32767): the corners of the reference resolution are the
    corners of the HID range. *)
Theorem move_corners (w : World) :
  1 <= _width (mouse w) -> 1 <= _height (mouse w) ->
  u16 (_width (mouse w)) -> u16 (_height (mouse w)) ->
  exists w0 w1,
    move 0 0 w = Done tt w0 /\
    _x (mouse w0) = 0 /\ _y (mouse w0) = 0 /\
    move (_width (mouse w)) (_height (mouse w)) w = Done tt w1 /\
    _x (mouse w1) = 32767 /\ _y (mouse w1) = 32767.
Proof.
  intros HW HH UW UH.
  assert (corner : forall ref, 1 <= ref -> u16 ref ->
            rescale 0 ref = 0 /\ rescale ref ref = 32767).
  { intros ref Href Uref. split.
    - rewrite rescale_exact; try assumption; try (unfold u16; lia);
        rewrite Z.mul_0_r, Z.div_0_l; lia.
    - rewrite rescale_exact; try assumption;
        rewrite Z.div_mul by lia; lia. }
  destruct (corner _ HW UW) as (cx0 & cx1).
  destruct (corner _ HH UH) as (cy0 & cy1).
  destruct (move_stored 0 0 w HW HH) as (w0 & E0 & S0).
  destruct (move_stored (_width (mouse w)) (_height (mouse w)) w HW HH)
    as (w1 & E1 & S1).
  exists w0, w1.
  destruct S0 as [(_ & _ & -> & ->) | (_ & -> & ->)];
    destruct S1 as [(EW & EH & -> & ->) | (_ & -> & ->)];
    conjuncts; auto.
Qed.

Lemma move_corners_witness :
  exists w0 w1,
    move 0 0 (AbsMouse_ctor HID_empty) = Done tt w0 /\
    _x (mouse w0) = 0 /\ _y (mouse w0) = 0 /\
    move 1920 1080 (AbsMouse_ctor HID_empty) = Done tt w1 /\
    _x (mouse w1) = 32767 /\ _y (mouse w1) = 32767.
Proof.
  apply (move_corners (AbsMouse_ctor HID_empty)); cbn; unfold u16; lia.
Defined.

(** ** The report loses nothing *)

(** X6.  The six bytes [report] builds determine the reported state: two
    well-typed adapters whose reports are equal hold the same buttons, the
    same coordinates and the same scroll delta. *)
Theorem report_buffer_injective (m1 m2 : AbsMouse_) :
  typed m1 -> typed m2 ->
  report_buffer m1 = report_buffer m2 ->
  _buttons m1 = _buttons m2 /\ _x m1 = _x m2 /\ _y m1 = _y m2 /\
  _scroll m1 = _scroll m2.
Proof.
  intros [_ Ts1 Tx1 Ty1 _ _] [_ Ts2 Tx2 Ty2 _ _] E.
  unfold report_buffer in E.
  injection E as Eb Exl Exh Eyl Eyh Es.
  conjuncts.
  - exact Eb.
  - rewrite <- (little_endian (_x m1)), <- (little_endian (_x m2)) by assumption.
    now rewrite Exl, Exh.
  - rewrite <- (little_endian (_y m1)), <- (little_endian (_y m2)) by assumption.
    now rewrite Eyl, Eyh.
  - rewrite <- (signed8_wrap8 (_scroll m1)), <- (signed8_wrap8 (_scroll m2))
      by assumption.
    now rewrite Es.
Qed.

(** Two adapters that differ only in what is not reported. *)
Lemma report_buffer_injective_witness :
  _buttons (mkAbsMouse 3 (-1) 300 400 1920 1080 true)
    = _buttons (mkAbsMouse 3 (-1) 300 400 800 600 false) /\
  _x (mkAbsMouse 3 (-1) 300 400 1920 1080 true)
    = _x (mkAbsMouse 3 (-1) 300 400 800 600 false) /\
  _y (mkAbsMouse 3 (-1) 300 400 1920 1080 true)
    = _y (mkAbsMouse 3 (-1) 300 400 800 600 false) /\
  _scroll (mkAbsMouse 3 (-1) 300 400 1920 1080 true)
    = _scroll (mkAbsMouse 3 (-1) 300 400 800 600 false).
Proof.
  apply (report_buffer_injective
           (mkAbsMouse 3 (-1) 300 400 1920 1080 true)
           (mkAbsMouse 3 (-1) 300 400 800 600 false)).
  - constructor; cbn; unfold u8, i8, u16, u32; lia.
  - constructor; cbn; unfold u8, i8, u16, u32; lia.
  - reflexivity.
Defined.

(** ** Press followed by release *)

Lemma press_effect b w :
  exists w',
    press b w = Done tt w' /\
    _buttons (mouse w') = wrap8 (Z.lor (_buttons (mouse w)) b).
Proof.
  rewrite press_unfold.
  match goal with |- exists _, when ?a report ?w0 = _ /\ _ =>
    destruct (when_report a w0) as (w' & E & Eb & _) end.
  exists w'. auto.
Qed.

Lemma release_effect b w :
  exists w',
    release b w = Done tt w' /\
    _buttons (mouse w') = wrap8 (Z.land (_buttons (mouse w)) (Z.lnot b)).
Proof.
  rewrite release_unfold.
  match goal with |- exists _, when ?a report ?w0 = _ /\ _ =>
    destruct (when_report a w0) as (w' & E & Eb & _) end.
  exists w'. auto.
Qed.

Lemma lor_then_clear a b : Z.land (Z.lor a b) (Z.lnot b) = Z.land a (Z.lnot b).
Proof.
  apply Z.bits_inj'. intros n Hn.
  rewrite !Z.land_spec, Z.lor_spec, Z.lnot_spec by assumption.
  destruct (Z.testbit a n), (Z.testbit b n); reflexivity.
Qed.

Lemma clear_then_lor a b : Z.lor (Z.land a (Z.lnot b)) b = Z.lor a b.
Proof.
  apply Z.bits_inj'. intros n Hn.
  rewrite !Z.lor_spec, Z.land_spec, Z.lnot_spec by assumption.
  destruct (Z.testbit a n), (Z.testbit b n); reflexivity.
Qed.

Lemma clear_disjoint a b : Z.land a b = 0 -> Z.land a (Z.lnot b) = a.
Proof.
  intros Hd. apply Z.bits_inj'. intros n Hn.
  rewrite Z.land_spec, Z.lnot_spec by assumption.
  assert (Hbit : Z.testbit (Z.land a b) n = false) by (rewrite Hd; apply Z.bits_0).
  rewrite Z.land_spec in Hbit.
  destruct (Z.testbit a n), (Z.testbit b n); try reflexivity; discriminate.
Qed.

(** X7.  A click: [press(b)] followed by [release(b)] leaves every button
    of [b] released and every other button as it was, so it restores the
    button state whenever no button of [b] was held before; [release(b)]
    followed by [press(b)] leaves every button of [b] held. *)
Theorem click_restores_buttons (w : World) (b : Z) :
  typed (mouse w) -> u8 b ->
  (exists w1 w2,
     press b w = Done tt w1 /\ release b w1 = Done tt w2 /\
     _buttons (mouse w2) = Z.land (_buttons (mouse w)) (Z.lnot b) /\
     (forall n, 0 <= n ->
        Z.testbit (_buttons (mouse w2)) n =
        Z.testbit (_buttons (mouse w)) n && negb (Z.testbit b n)) /\
     (Z.land (_buttons (mouse w)) b = 0 -> _buttons (mouse w2) = _buttons (mouse w))) /\
  (exists w3 w4,
     release b w = Done tt w3 /\ press b w3 = Done tt w4 /\
     _buttons (mouse w4) = Z.lor (_buttons (mouse w)) b).
Proof.
  intros [Tb _ _ _ _ _] Hb.
  destruct (press_effect b w) as (w1 & E1 & B1).
  destruct (release_effect b w1) as (w2 & E2 & B2).
  destruct (release_effect b w) as (w3 & E3 & B3).
  destruct (press_effect b w3) as (w4 & E4 & B4).
  rewrite lor_wrap8 in B1 by assumption.
  rewrite land_lnot_wrap8 in B3 by assumption.
  assert (B2' : _buttons (mouse w2) = Z.land (_buttons (mouse w)) (Z.lnot b)).
  { rewrite B2, B1, lor_then_clear. now apply land_lnot_wrap8. }
  assert (B4' : _buttons (mouse w4) = Z.lor (_buttons (mouse w)) b).
  { rewrite B4, B3, clear_then_lor. now apply lor_wrap8. }
  split.
  - exists w1, w2. conjuncts; auto.
    + intros n Hn. now rewrite B2', Z.land_spec, Z.lnot_spec.
    + intros Hd. rewrite B2'. now apply clear_disjoint.
  - exists w3, w4. auto.
Qed.

(** A left click while the right button is held. *)
Lemma click_restores_buttons_witness :
  exists w1 w2,
    press MOUSE_LEFT (mkWorld (mkAbsMouse 2 0 0 0 1920 1080 true) HID_empty)
      = Done tt w1 /\
    release MOUSE_LEFT w1 = Done tt w2 /\
    _buttons (mouse w2) = 2.
Proof.
  destruct (click_restores_buttons
              (mkWorld (mkAbsMouse 2 0 0 0 1920 1080 true) HID_empty) MOUSE_LEFT)
    as ((w1 & w2 & E1 & E2 & _ & _ & Hsame) & _).
  - constructor; cbn; unfold u8, i8, u16, u32; lia.
  - unfold u8, MOUSE_LEFT; lia.
  - exists w1, w2. split; [exact E1 |]. split; [exact E2 |].
    apply Hsame. reflexivity.
Defined.

(** ** Automatic reporting is manual reporting plus [report] *)

(** X8.  On an adapter that reports automatically, each of [move],
    [scroll], [press] and [release] does exactly what the same call followed
    by [report()] does with automatic reporting switched off around it: the
    same outcome, the same state and the same reports (and the same trap,
    for a [move] that divides by zero). *)
Theorem auto_report_is_manual_then_report (c : Call) (w : World) :
  is_mutator c = true ->
  _autoReport (mouse w) = true ->
  calls [CallInit (_width (mouse w)) (_height (mouse w)) false; c; CallReport;
         CallInit (_width (mouse w)) (_height (mouse w)) true] w
  = call c w.
Proof.
  intros Hc Ha. destruct w as [[B s x y W H a] h]. cbn in Ha. subst a.
  cbn [mouse _width _height].
  destruct c as [? ? ? | vx vy | wheel | button | button | ];
    try discriminate Hc; try reflexivity.
  step_act. cbn [mouse hid _width _height _autoReport set_config].
  destruct (W =? 32767), (H =? 32767), (W =? 0), (H =? 0); reflexivity.
Qed.

Lemma auto_report_is_manual_then_report_witness :
  calls [CallInit 800 600 false; CallMove 400 300; CallReport;
         CallInit 800 600 true]
        (mkWorld (mkAbsMouse 1 0 0 0 800 600 true) HID_empty)
  = move 400 300 (mkWorld (mkAbsMouse 1 0 0 0 800 600 true) HID_empty).
Proof.
  apply (auto_report_is_manual_then_report (CallMove 400 300)
           (mkWorld (mkAbsMouse 1 0 0 0 800 600 true) HID_empty));
    reflexivity.
Defined.

(** ** A zero reference resolution *)

Lemma call_returns c w :
  is_move c = false -> exists w', call c w = Done tt w'.
Proof.
  intros Hc.
  destruct c as [width height a | x y | wheel | button | button | ];
    cbn [call is_move] in *; try discriminate.
  - rewrite init_returns. eauto.
  - rewrite scroll_unfold.
    match goal with |- exists _, when ?a report ?w0 = _ =>
      destruct (when_report a w0) as (w' & E & _) end. eauto.
  - rewrite press_unfold.
    match goal with |- exists _, when ?a report ?w0 = _ =>
      destruct (when_report a w0) as (w' & E & _) end. eauto.
  - rewrite release_unfold.
    match goal with |- exists _, when ?a report ?w0 = _ =>
      destruct (when_report a w0) as (w' & E & _) end. eauto.
  - destruct (when_report true w) as (w' & E & _). eauto.
Qed.

(** X9.  Once the reference width or height is 0, it stays so until the
    next [init]: a sequence of calls without [init] returns exactly when it
    contains no [move]; [scroll], [press], [release] and [report] keep
    working, every [move] divides by zero. *)
Theorem zero_reference_blocks_move (cs : list Call) :
  forall w,
    _width (mouse w) = 0 \/ _height (mouse w) = 0 ->
    forallb (fun c => negb (is_init c)) cs = true ->
    ((exists w', calls cs w = Done tt w') <->
     forallb (fun c => negb (is_move c)) cs = true) /\
    (forallb (fun c => negb (is_move c)) cs = false ->
     calls cs w = Stuck DivisionByZero).
Proof.
  induction cs as [| c tl IH]; intros w Hz Hcs.
  - split; [| discriminate]. split; [reflexivity | intros _; exists w; reflexivity].
  - cbn [forallb] in *. apply andb_true_iff in Hcs. destruct Hcs as (Hc & Htl).
    apply negb_true_iff in Hc. rewrite calls_cons.
    destruct (is_move c) eqn:Hm.
    + destruct c; try discriminate Hm. cbn [call].
      rewrite move_traps by exact Hz. cbn [negb andb].
      split; [| reflexivity].
      split; [intros (w' & E); discriminate | discriminate].
    + destruct (call_returns c w Hm) as (w1 & E1). rewrite E1.
      destruct (call_effect c w w1 E1) as (_ & _ & _ & _ & _ & _ & Hdim & _).
      destruct (Hdim Hc) as (EW & EH).
      cbn [negb andb]. apply IH; [rewrite EW, EH; exact Hz | exact Htl].
Qed.

Lemma zero_reference_blocks_move_witness :
  (exists w',
     calls [CallPress 1; CallScroll 2; CallReport; CallRelease 1]
           (mkWorld (mkAbsMouse 0 0 0 0 0 1080 true) HID_empty) = Done tt w') /\
  calls [CallPress 1; CallMove 5 5; CallRelease 1]
        (mkWorld (mkAbsMouse 0 0 0 0 0 1080 true) HID_empty)
    = Stuck DivisionByZero.
Proof.
  split.
  - apply (zero_reference_blocks_move
             [CallPress 1; CallScroll 2; CallReport; CallRelease 1]
             (mkWorld (mkAbsMouse 0 0 0 0 0 1080 true) HID_empty));
      [left; reflexivity | reflexivity | reflexivity].
  - apply (zero_reference_blocks_move
             [CallPress 1; CallMove 5 5; CallRelease 1]
             (mkWorld (mkAbsMouse 0 0 0 0 0 1080 true) HID_empty));
      [left; reflexivity | reflexivity | reflexivity].
Defined.

(** ** Manual reporting: the last write wins *)

(** X10.  With automatic reporting off nothing is sent until [report()],
    and a later [scroll] or [move] replaces an earlier one: deltas set by
    [scroll] are not accumulated and an intermediate position is never
    seen by the host. *)
Theorem manual_last_write_wins (w : World) (a b x1 y1 x2 y2 : Z) :
  _autoReport (mouse w) = false ->
  calls [CallScroll a; CallScroll b] w = scroll b w /\
  calls [CallMove x1 y1; CallMove x2 y2] w = move x2 y2 w /\
  (forall w', calls [CallScroll a; CallScroll b; CallReport] w = Done tt w' ->
     exists log,
       sent (hid w') = sent (hid w) ++ log /\ length log = 1%nat /\
       Forall (fun r => scroll_byte r = wrap8 b) log).
Proof.
  intros Ha. destruct w as [[B s x y W H au] h]. cbn in Ha. subst au.
  split; [reflexivity |]. split.
  - destruct (W =? 32767) eqn:E1, (H =? 32767) eqn:E2,
             (W =? 0) eqn:E3, (H =? 0) eqn:E4;
      step_act; unfold set_xy;
      repeat (cbn [mouse hid _buttons _scroll _x _y _width _height _autoReport
                   negb orb];
              rewrite ?E1, ?E2, ?E3, ?E4);
      reflexivity.
  - intros w' E. vm_compute in E. injection E as <-.
    eexists. cbn [hid sent]. split; [reflexivity |]. split; [reflexivity |].
    repeat constructor.
Qed.

Lemma manual_last_write_wins_witness :
  calls [CallScroll 5; CallScroll (-2)] (AbsMouse_ctor HID_empty)
    = scroll (-2) (AbsMouse_ctor HID_empty) /\
  calls [CallMove 10 10; CallMove 960 540] (AbsMouse_ctor HID_empty)
    = move 960 540 (AbsMouse_ctor HID_empty).
Proof.
  destruct (manual_last_write_wins (AbsMouse_ctor HID_empty) 5 (-2) 10 10 960 540)
    as (Hs & Hm & _); [reflexivity |].
  split; [exact Hs | exact Hm].
Defined.

(** * Further properties of the frame format *)

(** X11.  The frame type codes identify the frame types: two types with the
    same code are the same type, and every code is a byte. *)
Theorem frame_type_codes_distinct (t1 t2 : FrameType) :
  FrameType_value t1 = FrameType_value t2 ->
  t1 = t2 /\ u8 (FrameType_value t1).
Proof.
  intros E. split; [now apply FrameType_value_inj |].
  unfold u8. destruct t1; cbn; lia.
Qed.

Lemma frame_type_codes_distinct_witness :
  FRAME_TYPE_KEY_RELEASE = FRAME_TYPE_KEY_RELEASE /\
  u8 (FrameType_value FRAME_TYPE_KEY_RELEASE).
Proof.
  apply (frame_type_codes_distinct FRAME_TYPE_KEY_RELEASE FRAME_TYPE_KEY_RELEASE).
  reflexivity.
Defined.

Lemma xor_checksum_app d1 d2 :
  xor_checksum (d1 ++ d2) = Z.lxor (xor_checksum d1) (xor_checksum d2).
Proof.
  induction d1 as [| b tl IH]; cbn [app xor_checksum].
  - now rewrite Z.lxor_0_l.
  - now rewrite IH, Z.lxor_assoc.
Qed.

Lemma xor_checksum_u8 data : Forall u8 data -> u8 (xor_checksum data).
Proof.
  induction 1 as [| b tl Hb Htl IH]; cbn [xor_checksum].
  - unfold u8; lia.
  - now apply lxor_u8.
Qed.

(** X12.  The receiver's check: the XOR over the data bytes and the byte
    that follows them is 0 exactly when that byte is the checksum of the
    data. *)
Theorem checksum_residue (data : list Z) (c : Z) :
  xor_checksum (data ++ [c]) = 0 <-> c = xor_checksum data.
Proof.
  rewrite xor_checksum_app. cbn [xor_checksum]. rewrite Z.lxor_0_r.
  split.
  - intros E. symmetry. now apply Z.lxor_eq.
  - intros ->. apply Z.lxor_nilpotent.
Qed.

Lemma checksum_residue_witness :
  xor_checksum ([0xAC; 0x01] ++ [0xAD]) = 0.
Proof.
  apply (checksum_residue [0xAC; 0x01] 0xAD). reflexivity.
Defined.

Lemma xor_checksum_set_byte data :
  forall i b, (i < length data)%nat ->
    xor_checksum (set_byte i b data) =
    Z.lxor (xor_checksum data) (Z.lxor (nth i data 0) b).
Proof.
  induction data as [| x tl IH]; intros i b Hi; cbn [length] in Hi; [lia |].
  destruct i as [| j]; cbn [set_byte xor_checksum nth].
  - rewrite (Z.lxor_comm x (xor_checksum tl)), Z.lxor_assoc.
    rewrite <- (Z.lxor_assoc x x b), Z.lxor_nilpotent, Z.lxor_0_l.
    apply Z.lxor_comm.
  - rewrite IH by lia. now rewrite Z.lxor_assoc.
Qed.

(** X13.  The checksum detects every corruption of a single data byte:
    replacing one data byte by any different value changes the checksum. *)
Theorem checksum_detects_byte_change (data : list Z) (i : nat) (b : Z) :
  (i < length data)%nat ->
  nth i data 0 <> b ->
  xor_checksum (set_byte i b data) <> xor_checksum data.
Proof.
  intros Hi Hne. rewrite xor_checksum_set_byte by assumption.
  apply lxor_changes. intros E. apply Hne. now apply Z.lxor_eq.
Qed.

Lemma checksum_detects_byte_change_witness :
  xor_checksum [0xAA; 0x10; 0x00; 0xFF; 0x01] <> xor_checksum [0xAA; 0x10; 0x00; 0x20; 0x01].
Proof.
  apply (checksum_detects_byte_change [0xAA; 0x10; 0x00; 0x20; 0x01] 3 0xFF).
  - cbn. lia.
  - cbn. discriminate.
Defined.

(** X14.  The checksum does not see the order of the data bytes: any
    rearrangement of the data has the same checksum, so transposed bytes go
    undetected. *)
Theorem checksum_ignores_order (d1 d2 : list Z) :
  Permutation d1 d2 -> xor_checksum d1 = xor_checksum d2.
Proof.
  induction 1 as [| x l l' _ IH | x y l | l l' l'' _ IH1 _ IH2];
    cbn [xor_checksum].
  - reflexivity.
  - now rewrite IH.
  - rewrite <- !Z.lxor_assoc. f_equal. apply Z.lxor_comm.
  - now rewrite IH1.
Qed.

(** A move frame with the two bytes of x transposed. *)
Lemma checksum_ignores_order_witness :
  xor_checksum [0xAA; 0x34; 0x12; 0x00; 0x01]
  = xor_checksum [0xAA; 0x12; 0x34; 0x00; 0x01].
Proof.
  apply (checksum_ignores_order [0xAA; 0x34; 0x12; 0x00; 0x01]
                                [0xAA; 0x12; 0x34; 0x00; 0x01]).
  apply perm_skip. apply perm_swap.
Defined.

(** X15.  A frame built from at most 5 data bytes fits the declared
    limits: it takes [length data + 3] bytes on the wire, at most
    [MAX_FRAME_LENGTH]; its length byte is at most [MAX_DATA_LENGTH]; and
    if the data are bytes, so is everything on the wire, the checksum
    included. *)
Theorem encode_fits (data : list Z) :
  (length data <= 5)%nat ->
  Forall u8 data ->
  length (encode data) = (length data + 3)%nat /\
  Z.of_nat (length (encode data)) <= MAX_FRAME_LENGTH /\
  nth 0 (encode data) 0 = FRAME_START /\
  nth 1 (encode data) 0 = Z.of_nat (length data) + 1 /\
  nth 1 (encode data) 0 <= MAX_DATA_LENGTH /\
  Forall u8 (encode data).
Proof.
  intros Hlen Hu8. unfold encode, wire.
  assert (L : length (FRAME_START :: Z.of_nat (length data + 1)
                        :: data ++ [xor_checksum data]) = (length data + 3)%nat).
  { cbn [length]. rewrite length_app. cbn [length]. lia. }
  rewrite L. cbn [nth].
  change MAX_FRAME_LENGTH with 8. unfold MAX_DATA_LENGTH.
  conjuncts; try lia; try reflexivity.
  repeat apply Forall_cons.
  - unfold u8, FRAME_START; lia.
  - unfold u8; lia.
  - apply Forall_app. split; [exact Hu8 |].
    constructor; [now apply xor_checksum_u8 | constructor].
Qed.

Lemma encode_fits_witness :
  length (encode [0xAA; 0xFF; 0x7F; 0xFF; 0x7F]) = 8%nat /\
  Forall u8 (encode [0xAA; 0xFF; 0x7F; 0xFF; 0x7F]).
Proof.
  destruct (encode_fits [0xAA; 0xFF; 0x7F; 0xFF; 0x7F])
    as (Hl & _ & _ & _ & _ & Hu).
  - cbn. lia.
  - repeat constructor; unfold u8; lia.
  - split; [exact Hl | exact Hu].
Defined.
